(** * vtkParallelCoordinatesActor: axis layout and polyline generation

    A shallow embedding of [Rendering/vtkParallelCoordinatesActor.cxx]
    (revision 1.22) and the properties its specification states.

    Numeric model.  [int] and [vtkIdType] values are integers of [Z]; the
    source performs no arithmetic on them that is meant to wrap.  [float]
    values are modelled twice.

    - The actor as a whole (layout, rebuild, rendering, release, text
      properties) is embedded with [float] as the rationals of [Q] and
      exact arithmetic; the cast [(int)] is truncation toward zero,
      [Qtrunc].  Rounding, infinities and NaN are outside this model.  It
      carries the properties that do not depend on them: which members
      are assigned and when, what is allocated, how many points and
      cells are built and in which order, what is rendered.

    - The layout pass, [Initialize] and [PlaceAxes], is embedded once
      more in module [Single] with [float] as IEEE binary32 (the values
      and operations of [SpecFloat] at precision 24 and exponents up to
      128): every operation rounds to nearest even, a comparison with a
      NaN is false, and overflow gives an infinity.  The properties of
      the ranges, the axis positions and the vertex coordinates, which
      depend on comparison and rounding, are stated of this model.

    Objects.  The actor is a record of the members the layout reads and
    writes; a member function is a function from the actor (and its
    arguments) to a [Result]: the returned [int], the messages and render
    calls it issued, and the actor afterwards.  A pointer member that may
    be [NULL] is an [option]. *)

From Stdlib Require Import String ZArith QArith List Bool Lia Lqa SpecFloat.
Import ListNotations.
Open Scope Z_scope.

(* ------------------------------------------------------------------ *)
(** ** Scalars *)

(** The cast [(int) q] of an exact value: the fractional part is
    discarded. *)
Definition Qtrunc (q : Q) : Z := Z.quot (Qnum q) (Z.pos (Qden q)).

(** The comparison [x < y] on exact values. *)
Definition Qltb (x y : Q) : bool := negb (Qle_bool y x).

(** [for (i = 0; i < n; i++)]: the indices the loop visits, in order. *)
Definition upto (n : Z) : list nat := seq 0 (Z.to_nat n).

(** [a[j] = v] on an array held as a list. *)
Fixpoint store {A : Type} (j : nat) (v : A) (a : list A) : list A :=
  match a, j with
  | [], _ => []
  | _ :: t, O => v :: t
  | h :: t, S k => h :: store k v t
  end.

(* ------------------------------------------------------------------ *)
(** ** Collaborators *)

(** [VTK_IV_COLUMN] / [VTK_IV_ROW]. *)
Inductive IndependentVariablesMode : Set :=
| VTK_IV_COLUMN
| VTK_IV_ROW.

(** What [PlaceAxes] asks of the field: [GetNumberOfComponents()], the
    tuple count [GetArray(i)->GetNumberOfTuples()] of each of its
    [GetNumberOfArrays()] arrays, and [GetComponent(i,j)], the value of
    component (column) [j] in tuple (row) [i]. *)
Record vtkFieldData : Type := mkField {
  GetNumberOfComponents : Z;
  NumberOfTuples : list Z;
  GetComponent : Z -> Z -> Q
}.

(** [vtkDataObject]: [GetFieldData()] may return [NULL]. *)
Record vtkDataObject : Type := mkDataObject {
  GetFieldData : option vtkFieldData
}.

(** What [PlaceAxes] and [RenderOpaqueGeometry] ask of the viewport: the
    computed viewport values of the actor's two corner coordinates, and
    the title size [vtkAxisActor2D::SetFontSize] reports in it. *)
Record vtkViewport : Type := mkViewport {
  Position : Z * Z;
  Position2 : Z * Z;
  stringSize : Z * Z
}.

(** The attributes [PlaceAxes] sets on each [vtkAxisActor2D]. *)
Record vtkAxisActor2D : Type := mkAxis {
  Range : Q * Q;
  AdjustLabels : bool;
  AxisNumberOfLabels : Z;
  AxisLabelFormat : string;
  Point1 : Z * Z;
  Point2 : Z * Z
}.

(** A point of [vtkPoints]: [float x[3]]. *)
Definition Point : Type := (Q * Q * Q)%type.

(** A cell of [vtkCellArray] as [PlaceAxes] builds it: the point count
    announced by [InsertNextCell(npts)] and the ids then added by
    [InsertCellPoint(id)]. *)
Record Cell : Type := mkCell {
  npts : Z;
  ptIds : list Z
}.

(** [vtkPolyData]: the points and the lines. *)
Record vtkPolyData : Type := mkPolyData {
  Points : list Point;
  Lines : list Cell
}.

(** [vtkPoints::InsertNextPoint]: appends and returns the new id. *)
Definition InsertNextPoint (pts : list Point) (x : Point) : Z * list Point :=
  (Z.of_nat (length pts), pts ++ [x]).

(** [vtkCellArray::InsertNextCell(npts)]: opens a cell. *)
Definition InsertNextCell (lines : list Cell) (n : Z) : list Cell :=
  lines ++ [mkCell n []].

(** [vtkCellArray::InsertCellPoint(id)]: adds to the cell last opened. *)
Fixpoint InsertCellPoint (lines : list Cell) (id : Z) : list Cell :=
  match lines with
  | [] => []
  | [c] => [mkCell (npts c) (ptIds c ++ [id])]
  | c :: rest => c :: InsertCellPoint rest id
  end.

(* ------------------------------------------------------------------ *)
(** ** The actor *)

Record vtkParallelCoordinatesActor : Type := mkActor {
  IndependentVariables : IndependentVariablesMode;
  N : Z;
  Input : option vtkDataObject;
  Axes : option (list vtkAxisActor2D);
  Mins : option (list Q);
  Maxs : option (list Q);
  Xs : option (list Z);
  YMin : Z;
  YMax : Z;
  Title : option string;
  TitlePosition : Q * Q;
  PlotData : vtkPolyData;
  NumberOfLabels : Z;
  LabelFormat : string;
  LastPosition : Z * Z;
  LastPosition2 : Z * Z
}.

Inductive RenderPass : Set :=
| Overlay
| OpaqueGeometry.

Inductive RenderTarget : Type :=
| TitleActor
| PlotActor (data : vtkPolyData)
| AxisActor (axis : vtkAxisActor2D).

Inductive Event : Type :=
| ErrorMacro (msg : string)
| Render (pass : RenderPass) (target : RenderTarget).

Record Result : Type := mkResult {
  ret : Z;
  log : list Event;
  self : vtkParallelCoordinatesActor
}.

(** The constructor (lines 37-87).  [YMin] and [YMax] are not
    initialised by it; the title actor's position is its own default. *)
Definition New (ymin ymax : Z) (titlePos : Q * Q) : vtkParallelCoordinatesActor :=
  {| IndependentVariables := VTK_IV_COLUMN;
     N := 0;
     Input := None;
     Axes := None;
     Mins := None;
     Maxs := None;
     Xs := None;
     YMin := ymin;
     YMax := ymax;
     Title := None;
     TitlePosition := titlePos;
     PlotData := mkPolyData [] [];
     NumberOfLabels := 2;
     LabelFormat := "%-#6.3g"%string;
     LastPosition := (0, 0);
     LastPosition2 := (0, 0) |}.

(** The members a layout pass assigns, written together. *)
Definition set_layout (this : vtkParallelCoordinatesActor) (n : Z)
    (axes : option (list vtkAxisActor2D)) (mins maxs : option (list Q))
    (xs : option (list Z)) (ymin ymax : Z) (plot : vtkPolyData)
  : vtkParallelCoordinatesActor :=
  {| IndependentVariables := IndependentVariables this;
     N := n;
     Input := Input this;
     Axes := axes;
     Mins := mins;
     Maxs := maxs;
     Xs := xs;
     YMin := ymin;
     YMax := ymax;
     Title := Title this;
     TitlePosition := TitlePosition this;
     PlotData := plot;
     NumberOfLabels := NumberOfLabels this;
     LabelFormat := LabelFormat this;
     LastPosition := LastPosition this;
     LastPosition2 := LastPosition2 this |}.

Definition set_N (this : vtkParallelCoordinatesActor) (n : Z)
  : vtkParallelCoordinatesActor :=
  set_layout this n (Axes this) (Mins this) (Maxs this) (Xs this)
             (YMin this) (YMax this) (PlotData this).

Definition set_LastPositions (this : vtkParallelCoordinatesActor)
    (p p2 : Z * Z) : vtkParallelCoordinatesActor :=
  {| IndependentVariables := IndependentVariables this;
     N := N this;
     Input := Input this;
     Axes := Axes this;
     Mins := Mins this;
     Maxs := Maxs this;
     Xs := Xs this;
     YMin := YMin this;
     YMax := YMax this;
     Title := Title this;
     TitlePosition := TitlePosition this;
     PlotData := PlotData this;
     NumberOfLabels := NumberOfLabels this;
     LabelFormat := LabelFormat this;
     LastPosition := p;
     LastPosition2 := p2 |}.

Definition set_TitlePosition (this : vtkParallelCoordinatesActor)
    (p : Q * Q) : vtkParallelCoordinatesActor :=
  {| IndependentVariables := IndependentVariables this;
     N := N this;
     Input := Input this;
     Axes := Axes this;
     Mins := Mins this;
     Maxs := Maxs this;
     Xs := Xs this;
     YMin := YMin this;
     YMax := YMax this;
     Title := Title this;
     TitlePosition := p;
     PlotData := PlotData this;
     NumberOfLabels := NumberOfLabels this;
     LabelFormat := LabelFormat this;
     LastPosition := LastPosition this;
     LastPosition2 := LastPosition2 this |}.

(** [Initialize] (lines 127-145): free the axes and the arrays that go
    with them. *)
Definition Initialize (this : vtkParallelCoordinatesActor)
  : vtkParallelCoordinatesActor :=
  let this :=
    match Axes this with
    | Some _ =>
        set_layout this (N this) None None None None
                   (YMin this) (YMax this) (PlotData this)
    | None => this
    end in
  set_N this 0.

(* ------------------------------------------------------------------ *)
(** ** PlaceAxes, step by step *)

(** One visit of the range scan (lines 348-355 and 366-373): value [v]
    seen for variable [j]. *)
Definition ScanValue (j : nat) (v : Q) (mm : list Q * list Q)
  : list Q * list Q :=
  let (mins, maxs) := mm in
  let mins := if Qltb v (nth j mins 0%Q) then store j v mins else mins in
  let maxs := if Qltb (nth j maxs 0%Q) v then store j v maxs else maxs in
  (mins, maxs).

(** The range scan of either mode (lines 341-376). *)
Definition ScanRanges (mode : IndependentVariablesMode) (field : vtkFieldData)
    (numColumns numRows : Z) (mm : list Q * list Q) : list Q * list Q :=
  match mode with
  | VTK_IV_COLUMN =>
      fold_left (fun mm j =>
        fold_left (fun mm i =>
          ScanValue j (GetComponent field (Z.of_nat i) (Z.of_nat j)) mm)
          (upto numRows) mm)
        (upto numColumns) mm
  | VTK_IV_ROW =>
      fold_left (fun mm j =>
        fold_left (fun mm i =>
          ScanValue j (GetComponent field (Z.of_nat j) (Z.of_nat i)) mm)
          (upto numColumns) mm)
        (upto numRows) mm
  end.

(** The position of axis [i] of [n] between [p1x] and [p2x] (line 414),
    in exact arithmetic; [Single.AxisX] is the rounded one. *)
Definition AxisX (p1x p2x n : Z) (i : nat) : Z :=
  Qtrunc (inject_Z p1x
          + (inject_Z (Z.of_nat i) / inject_Z n) * inject_Z (p2x - p1x))%Q.

(** The vertical position of value [v] on an axis of range [lo, hi]
    (lines 438-447, and again 463-472), in exact arithmetic;
    [Single.PlotY] is the rounded one. *)
Definition PlotY (lo hi : Q) (ymin ymax : Z) (v : Q) : Q :=
  if Qeq_bool (hi - lo) 0
  then ((1 # 2) * inject_Z (ymax - ymin))%Q
  else (inject_Z ymin
        + ((v - lo) / (hi - lo)) * inject_Z (ymax - ymin))%Q.

(** The point of value [v] on axis [i]: [x[0]], [x[1]], and [x[2] = 0]. *)
Definition PlotPoint (xs : list Z) (mins maxs : list Q) (ymin ymax : Z)
    (i : nat) (v : Q) : Point :=
  (inject_Z (nth i xs 0),
   PlotY (nth i mins 0%Q) (nth i maxs 0%Q) ymin ymax v,
   0%Q).

(** The body of the inner loop: insert the point, add its id to the
    cell. *)
Definition PlotVertex (x : Point) (pl : list Point * list Cell)
  : list Point * list Cell :=
  let (pts, lines) := pl in
  let (id, pts) := InsertNextPoint pts x in
  (pts, InsertCellPoint lines id).

(** The lines of either mode, from empty points and lines (lines
    420-477). *)
Definition PlotLines (mode : IndependentVariablesMode) (field : vtkFieldData)
    (numColumns numRows : Z) (xs : list Z) (mins maxs : list Q)
    (ymin ymax : Z) : list Point * list Cell :=
  match mode with
  | VTK_IV_COLUMN =>
      fold_left (fun pl j =>
        fold_left (fun pl i =>
          PlotVertex (PlotPoint xs mins maxs ymin ymax i
                        (GetComponent field (Z.of_nat j) (Z.of_nat i))) pl)
          (upto numColumns)
          (fst pl, InsertNextCell (snd pl) numColumns))
        (upto numRows) ([], [])
  | VTK_IV_ROW =>
      fold_left (fun pl j =>
        fold_left (fun pl i =>
          PlotVertex (PlotPoint xs mins maxs ymin ymax i
                        (GetComponent field (Z.of_nat i) (Z.of_nat j))) pl)
          (upto numRows)
          (fst pl, InsertNextCell (snd pl) numColumns))
        (upto numColumns) ([], [])
  end.

(* ------------------------------------------------------------------ *)
(** ** The text properties *)

(** [vtkTextProperty] is outside the sources at hand, so the text
    property members are stated for any kind of object [P] and any
    [Set...] / [Get...] pair [set] / [get] of one of its attributes (font
    family, bold, italic or shadow).

    The text property objects in memory and the actor's two pointers to
    them.  The two may point to one object; a pointer is null ([None])
    or the place of an object. *)
Record TextProperties (P : Type) : Type := mkTextProperties {
  Heap : list P;
  LabelTextProperty : option nat;
  TitleTextProperty : option nat
}.

Arguments mkTextProperties {P} _ _ _.
Arguments Heap {P} _.
Arguments LabelTextProperty {P} _.
Arguments TitleTextProperty {P} _.

(** [p->Set...(val)]; dereferencing a null pointer, or one to no object,
    gives [None]. *)
Definition SetThrough {P : Type} (set : Z -> P -> P) (p : option nat)
    (val : Z) (heap : list P) : option (list P) :=
  match p with
  | None => None
  | Some a =>
      match nth_error heap a with
      | None => None
      | Some object => Some (store a (set val object) heap)
      end
  end.

(** [p->Get...()]. *)
Definition GetThrough {P : Type} (get : P -> Z) (p : option nat)
    (heap : list P) : option Z :=
  match p with
  | None => None
  | Some a => option_map get (nth_error heap a)
  end.

(** [SetFontFamily], [SetBold], [SetItalic], [SetShadow] (lines 548-590),
    each for its attribute: set it on the label property, then on the
    title property. *)
Definition SetTextAttribute {P : Type} (set : Z -> P -> P) (val : Z)
    (this : TextProperties P) : option (TextProperties P) :=
  match SetThrough set (LabelTextProperty this) val (Heap this) with
  | None => None
  | Some heap =>
      match SetThrough set (TitleTextProperty this) val heap with
      | None => None
      | Some heap =>
          Some (mkTextProperties heap (LabelTextProperty this)
                                 (TitleTextProperty this))
      end
  end.

(** [GetFontFamily], [GetBold], [GetItalic], [GetShadow]: read from the
    title property. *)
Definition GetTextAttribute {P : Type} (get : P -> Z)
    (this : TextProperties P) : option Z :=
  GetThrough get (TitleTextProperty this) (Heap this).

(* ------------------------------------------------------------------ *)
(** ** The layout in single precision

    [Initialize] and [PlaceAxes] once more, with [float] as IEEE
    binary32, on a platform that evaluates a [float] expression in
    [float]: every operation rounds to nearest even, a comparison with a
    NaN is false, and [(float)] and [(int)] convert as C++ does.  The
    values are those of [SpecFloat]; the values of a [float] are the
    ones [valid_binary 24 128] accepts, which the operations preserve
    and on which [SFcompare] is the order of the reals.  The actor keeps
    the members [Initialize] and [PlaceAxes] read or assign. *)

Module Single.

Definition float : Set := spec_float.

(** [x + y], [x - y], [x * y], [x / y], [-x] on [float]. *)
Definition add : float -> float -> float := SFadd 24 128.
Definition sub : float -> float -> float := SFsub 24 128.
Definition mul : float -> float -> float := SFmul 24 128.
Definition div : float -> float -> float := SFdiv 24 128.
Definition opp : float -> float := SFopp.

(** [x < y], [x <= y] and [x == 0.0]. *)
Definition ltb : float -> float -> bool := SFltb.
Definition leb : float -> float -> bool := SFleb.
Definition is_zero (x : float) : bool := SFeqb x (S754_zero false).

Definition is_nan (x : float) : bool :=
  match x with
  | S754_nan => true
  | _ => false
  end.

(** [(float) z] of an integer. *)
Definition of_int (z : Z) : float := binary_normalize 24 128 z 0 false.

(** [(int) x]: the fraction is discarded.  C++ leaves the cast of a NaN
    or an infinity undefined; it is taken to give [INT_MIN]. *)
Definition to_int (x : float) : Z :=
  match x with
  | S754_zero _ => 0
  | S754_finite s m e =>
      cond_Zopp s (match e with
                   | Zneg p => Z.pos m / 2 ^ Z.pos p
                   | _ => Z.pos m * 2 ^ e
                   end)
  | _ => - 2 ^ 31
  end.

(** [0.5 * d] for an [int] [d], computed in [double] and stored in a
    [float]. *)
Definition half (d : Z) : float :=
  match SFmul 53 1024 (S754_finite false 4503599627370496 (-53))
              (binary_normalize 53 1024 d 0 false) with
  | S754_finite s m e => binary_round 24 128 s m e
  | x => x
  end.

Record vtkFieldData : Type := mkField {
  GetNumberOfComponents : Z;
  NumberOfTuples : list Z;
  GetComponent : Z -> Z -> float
}.

Record vtkDataObject : Type := mkDataObject {
  GetFieldData : option vtkFieldData
}.

Record vtkAxisActor2D : Type := mkAxis {
  Range : float * float;
  AdjustLabels : bool;
  AxisNumberOfLabels : Z;
  AxisLabelFormat : string;
  Point1 : Z * Z;
  Point2 : Z * Z
}.

Definition Point : Type := (float * float * float)%type.

Record vtkPolyData : Type := mkPolyData {
  Points : list Point;
  Lines : list Cell
}.

Definition InsertNextPoint (pts : list Point) (x : Point) : Z * list Point :=
  (Z.of_nat (length pts), pts ++ [x]).

Record vtkParallelCoordinatesActor : Type := mkActor {
  IndependentVariables : IndependentVariablesMode;
  N : Z;
  Axes : option (list vtkAxisActor2D);
  Mins : option (list float);
  Maxs : option (list float);
  Xs : option (list Z);
  YMin : Z;
  YMax : Z;
  PlotData : vtkPolyData;
  NumberOfLabels : Z;
  LabelFormat : string
}.

Record Result : Type := mkResult {
  ret : Z;
  log : list Event;
  self : vtkParallelCoordinatesActor
}.

Definition set_layout (this : vtkParallelCoordinatesActor) (n : Z)
    (axes : option (list vtkAxisActor2D)) (mins maxs : option (list float))
    (xs : option (list Z)) (ymin ymax : Z) (plot : vtkPolyData)
  : vtkParallelCoordinatesActor :=
  {| IndependentVariables := IndependentVariables this;
     N := n;
     Axes := axes;
     Mins := mins;
     Maxs := maxs;
     Xs := xs;
     YMin := ymin;
     YMax := ymax;
     PlotData := plot;
     NumberOfLabels := NumberOfLabels this;
     LabelFormat := LabelFormat this |}.

Definition set_N (this : vtkParallelCoordinatesActor) (n : Z)
  : vtkParallelCoordinatesActor :=
  set_layout this n (Axes this) (Mins this) (Maxs this) (Xs this)
             (YMin this) (YMax this) (PlotData this).

(** [Initialize] (lines 127-145). *)
Definition Initialize (this : vtkParallelCoordinatesActor)
  : vtkParallelCoordinatesActor :=
  let this :=
    match Axes this with
    | Some _ =>
        set_layout this (N this) None None None None
                   (YMin this) (YMax this) (PlotData this)
    | None => this
    end in
  set_N this 0.

(** One visit of the range scan (lines 348-355 and 366-373). *)
Definition ScanValue (j : nat) (v : float) (mm : list float * list float)
  : list float * list float :=
  let (mins, maxs) := mm in
  let mins :=
    if ltb v (nth j mins S754_nan) then store j v mins else mins in
  let maxs :=
    if ltb (nth j maxs S754_nan) v then store j v maxs else maxs in
  (mins, maxs).

(** The range scan of either mode (lines 341-376). *)
Definition ScanRanges (mode : IndependentVariablesMode) (field : vtkFieldData)
    (numColumns numRows : Z) (mm : list float * list float)
  : list float * list float :=
  match mode with
  | VTK_IV_COLUMN =>
      fold_left (fun mm j =>
        fold_left (fun mm i =>
          ScanValue j (GetComponent field (Z.of_nat i) (Z.of_nat j)) mm)
          (upto numRows) mm)
        (upto numColumns) mm
  | VTK_IV_ROW =>
      fold_left (fun mm j =>
        fold_left (fun mm i =>
          ScanValue j (GetComponent field (Z.of_nat j) (Z.of_nat i)) mm)
          (upto numColumns) mm)
        (upto numRows) mm
  end.

(** The position of axis [i] of [n] (line 414). *)
Definition AxisX (p1x p2x n : Z) (i : nat) : Z :=
  to_int (add (of_int p1x)
              (mul (div (of_int (Z.of_nat i)) (of_int n))
                   (of_int (p2x - p1x)))).

(** The vertical position of a value (lines 438-447, and again
    463-472). *)
Definition PlotY (lo hi : float) (ymin ymax : Z) (v : float) : float :=
  if is_zero (sub hi lo)
  then half (ymax - ymin)
  else add (of_int ymin)
           (mul (div (sub v lo) (sub hi lo)) (of_int (ymax - ymin))).

(** The point of value [v] on axis [i]; [x[2]] is [0.0]. *)
Definition PlotPoint (xs : list Z) (mins maxs : list float) (ymin ymax : Z)
    (i : nat) (v : float) : Point :=
  (of_int (nth i xs 0),
   PlotY (nth i mins S754_nan) (nth i maxs S754_nan) ymin ymax v,
   S754_zero false).

Definition PlotVertex (x : Point) (pl : list Point * list Cell)
  : list Point * list Cell :=
  let (pts, lines) := pl in
  let (id, pts) := InsertNextPoint pts x in
  (pts, InsertCellPoint lines id).

(** The lines of either mode (lines 420-477). *)
Definition PlotLines (mode : IndependentVariablesMode) (field : vtkFieldData)
    (numColumns numRows : Z) (xs : list Z) (mins maxs : list float)
    (ymin ymax : Z) : list Point * list Cell :=
  match mode with
  | VTK_IV_COLUMN =>
      fold_left (fun pl j =>
        fold_left (fun pl i =>
          PlotVertex (PlotPoint xs mins maxs ymin ymax i
                        (GetComponent field (Z.of_nat j) (Z.of_nat i))) pl)
          (upto numColumns)
          (fst pl, InsertNextCell (snd pl) numColumns))
        (upto numRows) ([], [])
  | VTK_IV_ROW =>
      fold_left (fun pl j =>
        fold_left (fun pl i =>
          PlotVertex (PlotPoint xs mins maxs ymin ymax i
                        (GetComponent field (Z.of_nat i) (Z.of_nat j))) pl)
          (upto numRows)
          (fst pl, InsertNextCell (snd pl) numColumns))
        (upto numColumns) ([], [])
  end.

(** The positions [Xs] of [n] axes (lines 403-414). *)
Definition AxisPositions (viewport : vtkViewport) (n : Z) : list Z :=
  map (AxisX (fst (Position viewport)) (fst (Position2 viewport)) n)
      (upto n).

(** The [n] axes (lines 386-402 and 415-416). *)
Definition MakeAxes (this : vtkParallelCoordinatesActor)
    (mins maxs : list float) (xs : list Z) (ymin ymax : Z) (n : Z)
  : list vtkAxisActor2D :=
  map (fun i =>
         {| Range := (nth i mins S754_nan, nth i maxs S754_nan);
            AdjustLabels := false;
            AxisNumberOfLabels := NumberOfLabels this;
            AxisLabelFormat := LabelFormat this;
            Point1 := (nth i xs 0, ymin);
            Point2 := (nth i xs 0, ymax) |})
      (upto n).

Section Constants.

Variable VTK_LARGE_ID : Z.
Variable VTK_LARGE_FLOAT : float.

(** The row count (lines 301-312). *)
Definition NumRows (field : vtkFieldData) : Z :=
  fold_left (fun numRows numTuples =>
               if numTuples <? numRows then numTuples else numRows)
            (NumberOfTuples field) VTK_LARGE_ID.

(** The number of independent variables (lines 315-322). *)
Definition CountVariables (mode : IndependentVariablesMode)
    (field : vtkFieldData) : Z :=
  match mode with
  | VTK_IV_COLUMN => GetNumberOfComponents field
  | VTK_IV_ROW => NumRows field
  end.

(** The range of every variable (lines 333-376). *)
Definition FindRanges (mode : IndependentVariablesMode)
    (field : vtkFieldData) : list float * list float :=
  let count := Z.to_nat (CountVariables mode field) in
  ScanRanges mode field (GetNumberOfComponents field) (NumRows field)
    (repeat VTK_LARGE_FLOAT count, repeat (opp VTK_LARGE_FLOAT) count).

(** [PlaceAxes] (lines 285-483). *)
Definition PlaceAxes (input : vtkDataObject) (viewport : vtkViewport)
    (this : vtkParallelCoordinatesActor) : Result :=
  let this := Initialize this in
  match GetFieldData input with
  | None => mkResult 0 [] this
  | Some field =>
      let numColumns := GetNumberOfComponents field in
      let numRows := NumRows field in
      let mode := IndependentVariables this in
      let n := CountVariables mode field in
      if (n <=? 0) || (n >=? VTK_LARGE_ID)
      then mkResult 0 [ErrorMacro "No field data to plot"%string]
                    (set_N this 0)
      else
        let ranges := FindRanges mode field in
        let mins := fst ranges in
        let maxs := snd ranges in
        let ymin := snd (Position viewport) in
        let ymax := snd (Position2 viewport) in
        let xs := AxisPositions viewport n in
        let axes := MakeAxes this mins maxs xs ymin ymax n in
        let plot :=
          PlotLines mode field numColumns numRows xs mins maxs ymin ymax in
        mkResult 1 []
          (set_layout this n (Some axes) (Some mins) (Some maxs) (Some xs)
                      ymin ymax (mkPolyData (fst plot) (snd plot)))
  end.

End Constants.

(** The value of tuple [t] on axis [i], by mode. *)
Definition TupleValue (mode : IndependentVariablesMode)
    (field : vtkFieldData) (t i : Z) : float :=
  match mode with
  | VTK_IV_COLUMN => GetComponent field t i
  | VTK_IV_ROW => GetComponent field i t
  end.

(** The values the scan reads for axis [j], in the order it reads
    them. *)
Definition AxisValues (mode : IndependentVariablesMode)
    (field : vtkFieldData) (tuples : Z) (j : nat) : list float :=
  map (fun t => TupleValue mode field (Z.of_nat t) (Z.of_nat j))
      (upto tuples).

(** The least of [start] and the values, kept the way the scan keeps
    it; and the greatest. *)
Definition running_min (start : float) (values : list float) : float :=
  fold_left (fun m v => if ltb v m then v else m) values start.

Definition running_max (start : float) (values : list float) : float :=
  fold_left (fun m v => if ltb m v then v else m) values start.

(** [Mins] and [Maxs] both hold [n] entries. *)
Definition both_length (n : nat) (mm : list float * list float) : Prop :=
  length (fst mm) = n /\ length (snd mm) = n.


(** The points of [tuples] polylines over [axes] axes, in insertion
    order. *)
Definition GridPoints (point : nat -> nat -> Point) (tuples axes : list nat)
  : list Point :=
  flat_map (fun t => map (point t) axes) tuples.

(** A field of one-component arrays, one array per column. *)
Definition TableField (columns : list (list float)) : vtkFieldData :=
  {| GetNumberOfComponents := Z.of_nat (length columns);
     NumberOfTuples := map (fun c => Z.of_nat (length c)) columns;
     GetComponent := fun i j =>
       nth (Z.to_nat i) (nth (Z.to_nat j) columns []) S754_nan |}.

(** An actor in the state the constructor leaves, with a mode. *)
Definition NewActor (mode : IndependentVariablesMode)
  : vtkParallelCoordinatesActor :=
  {| IndependentVariables := mode;
     N := 0;
     Axes := None;
     Mins := None;
     Maxs := None;
     Xs := None;
     YMin := 0;
     YMax := 0;
     PlotData := mkPolyData [] [];
     NumberOfLabels := 2;
     LabelFormat := "%-#6.3g"%string |}.

(** [VTK_LARGE_FLOAT] as VTK defines it, [1.0e+38F], for the samples. *)
Definition large_float : float := of_int (10 ^ 38).

(** Sample data: tables of integers; a column that starts with a NaN;
    the least [float] above 1; boxes spanning (0,0)-(22,100) and
    (8388608,0)-(8388609,100). *)
Definition table (columns : list (list Z)) : vtkDataObject :=
  mkDataObject (Some (TableField (map (map of_int) columns))).

Definition nan_column : vtkFieldData :=
  TableField [[S754_nan; of_int 1; of_int 2]].


Definition crowded_box : vtkViewport := mkViewport (0, 0) (22, 100) (40, 12).

Definition far_box : vtkViewport :=
  mkViewport (8388608, 0) (8388609, 100) (40, 12).

End Single.

(* ------------------------------------------------------------------ *)
(** ** The layout and the render passes *)

Section Actor.

(** [VTK_LARGE_ID] and [VTK_LARGE_FLOAT] are defined outside the sources
    at hand; the development holds for every value of them. *)
Variable VTK_LARGE_ID : Z.
Variable VTK_LARGE_FLOAT : Q.

(** What a sub-actor's render call returns. *)
Variable Rendered : RenderPass -> RenderTarget -> Z.

(** The row count (lines 301-312): [numRows] starts at [VTK_LARGE_ID]
    and is lowered by every array with fewer tuples. *)
Definition NumRows (field : vtkFieldData) : Z :=
  fold_left (fun numRows numTuples =>
               if numTuples <? numRows then numTuples else numRows)
            (NumberOfTuples field) VTK_LARGE_ID.

(** The number of independent variables (lines 315-322).  The row count
    is a [vtkIdType] and [N] an [int]: the assignment is taken to keep
    the value. *)
Definition CountVariables (mode : IndependentVariablesMode)
    (field : vtkFieldData) : Z :=
  match mode with
  | VTK_IV_COLUMN => GetNumberOfComponents field
  | VTK_IV_ROW => NumRows field
  end.

(** The range of every variable (lines 333-376): [Mins] and [Maxs] are
    allocated, filled with [VTK_LARGE_FLOAT] and [-VTK_LARGE_FLOAT], and
    narrowed by the scan. *)
Definition FindRanges (mode : IndependentVariablesMode)
    (field : vtkFieldData) : list Q * list Q :=
  let count := Z.to_nat (CountVariables mode field) in
  ScanRanges mode field (GetNumberOfComponents field)
    (NumRows field)
    (repeat VTK_LARGE_FLOAT count, repeat (- VTK_LARGE_FLOAT)%Q count).

(** The positions [Xs] of [n] axes in the viewport (lines 403-414). *)
Definition AxisPositions (viewport : vtkViewport) (n : Z) : list Z :=
  map (AxisX (fst (Position viewport)) (fst (Position2 viewport)) n)
      (upto n).

(** The [n] axes: each is created with its range (lines 386-402), and
    then placed (lines 415-416). *)
Definition MakeAxes (this : vtkParallelCoordinatesActor)
    (mins maxs : list Q) (xs : list Z) (ymin ymax : Z) (n : Z)
  : list vtkAxisActor2D :=
  map (fun i =>
         {| Range := (nth i mins 0%Q, nth i maxs 0%Q);
            AdjustLabels := false;
            AxisNumberOfLabels := NumberOfLabels this;
            AxisLabelFormat := LabelFormat this;
            Point1 := (nth i xs 0, ymin);
            Point2 := (nth i xs 0, ymax) |})
      (upto n).

(** [PlaceAxes] (lines 285-483).  [input] is [this->GetInput()], which
    the caller has checked; the viewport supplies the two corners of the
    box. *)
Definition PlaceAxes (input : vtkDataObject) (viewport : vtkViewport)
    (this : vtkParallelCoordinatesActor) : Result :=
  let this := Initialize this in
  match GetFieldData input with
  | None => mkResult 0 [] this
  | Some field =>
      let numColumns := GetNumberOfComponents field in
      let numRows := NumRows field in
      let mode := IndependentVariables this in
      let n := CountVariables mode field in
      if (n <=? 0) || (n >=? VTK_LARGE_ID)
      then mkResult 0 [ErrorMacro "No field data to plot"%string]
                    (set_N this 0)
      else
        let ranges := FindRanges mode field in
        let mins := fst ranges in
        let maxs := snd ranges in
        let ymin := snd (Position viewport) in
        let ymax := snd (Position2 viewport) in
        let xs := AxisPositions viewport n in
        let axes := MakeAxes this mins maxs xs ymin ymax n in
        let plot :=
          PlotLines mode field numColumns numRows xs mins maxs ymin ymax in
        mkResult 1 []
          (set_layout this n (Some axes) (Some mins) (Some maxs) (Some xs)
                      ymin ymax (mkPolyData (fst plot) (snd plot)))
  end.

(** The render calls both passes end with (lines 160-173, 268-281): the
    title if there is one, the plot, then [Axes[i]] for each [i] below
    [N].  On a reachable actor [Axes] holds [N] axes; an [i] beyond the
    array, which C++ leaves undefined, renders nothing here. *)
Definition RenderParts (pass : RenderPass)
    (this : vtkParallelCoordinatesActor) : Result :=
  let title :=
    match Title this with
    | Some _ => [TitleActor]
    | None => []
    end in
  let axes :=
    flat_map (fun i =>
                match Axes this with
                | Some a => match nth_error a i with
                            | Some axis => [AxisActor axis]
                            | None => []
                            end
                | None => []
                end)
             (upto (N this)) in
  let calls := title ++ [PlotActor (PlotData this)] ++ axes in
  mkResult (fold_left (fun renderedSomething t =>
                         renderedSomething + Rendered pass t) calls 0)
           (map (Render pass) calls)
           this.

(** [RenderOverlay] (lines 149-174). *)
Definition RenderOverlay (this : vtkParallelCoordinatesActor) : Result :=
  match Input this with
  | None => mkResult 0 [ErrorMacro "Nothing to plot!"%string] this
  | Some _ =>
      if N this <=? 0
      then mkResult 0 [ErrorMacro "Nothing to plot!"%string] this
      else RenderParts Overlay this
  end.

(** The four comparisons of lines 204-207, negated. *)
Definition same_position (p q : Z * Z) : bool :=
  (fst p =? fst q) && (snd p =? snd q).

(** Where the rebuild puts the title (lines 260-261): centred above the
    axes. *)
Definition TitleAt (viewport : vtkViewport)
    (this : vtkParallelCoordinatesActor) : Q * Q :=
  let xs := match Xs this with Some xs => xs | None => [] end in
  let ends := nth 0 xs 0 + nth (Z.to_nat (N this - 1)) xs 0 in
  (inject_Z ends / 2,
   inject_Z (YMax this) + inject_Z (snd (stringSize viewport)) / 2)%Q.

(** The rebuild of [RenderOpaqueGeometry] (lines 226-281): build the
    axes, and if that succeeds build the title and render. *)
Definition Rebuild (input : vtkDataObject) (viewport : vtkViewport)
    (this : vtkParallelCoordinatesActor) : Result :=
  let placed := PlaceAxes input viewport this in
  if ret placed =? 0
  then mkResult 0 (log placed) (self placed)
  else
    let this := self placed in
    RenderParts OpaqueGeometry
                (set_TitlePosition this (TitleAt viewport this)).

(** [RenderOpaqueGeometry] (lines 177-282).  The time stamps it compares
    belong to objects outside the sources at hand, so the two comparisons are
    arguments: [viewportNewer], the viewport or its window was modified
    after the last build; [stale], the actor, its input or a text
    property was modified after the last build.  [this->Modified()]
    makes the actor newer than its last build. *)
Definition RenderOpaqueGeometry (viewport : vtkViewport)
    (viewportNewer stale : bool) (this : vtkParallelCoordinatesActor)
  : Result :=
  match Input this with
  | None => mkResult 0 [ErrorMacro "Nothing to plot!"%string] this
  | Some input =>
      let moved :=
        viewportNewer
        && negb (same_position (Position viewport) (LastPosition this)
                 && same_position (Position2 viewport) (LastPosition2 this)) in
      let this :=
        if moved
        then set_LastPositions this (Position viewport) (Position2 viewport)
        else this in
      if moved || stale
      then Rebuild input viewport this
      else RenderParts OpaqueGeometry this
  end.

(** The [Set...] member functions ([SetInput], [SetIndependentVariables],
    [SetTitle], [SetNumberOfLabels], [SetLabelFormat]): each assigns its
    configuration member and nothing else. *)
Definition Configure (mode : IndependentVariablesMode)
    (input : option vtkDataObject) (title : option string) (labels : Z)
    (format : string) (this : vtkParallelCoordinatesActor)
  : vtkParallelCoordinatesActor :=
  {| IndependentVariables := mode;
     N := N this;
     Input := input;
     Axes := Axes this;
     Mins := Mins this;
     Maxs := Maxs this;
     Xs := Xs this;
     YMin := YMin this;
     YMax := YMax this;
     Title := title;
     TitlePosition := TitlePosition this;
     PlotData := PlotData this;
     NumberOfLabels := labels;
     LabelFormat := format;
     LastPosition := LastPosition this;
     LastPosition2 := LastPosition2 this |}.

(** The actors a program can get to: constructed, then configured,
    initialised, laid out and rendered any number of times. *)
Inductive Reachable : vtkParallelCoordinatesActor -> Prop :=
| reach_New ymin ymax titlePos :
    Reachable (New ymin ymax titlePos)
| reach_Configure mode input title labels format this :
    Reachable this ->
    Reachable (Configure mode input title labels format this)
| reach_Initialize this :
    Reachable this ->
    Reachable (Initialize this)
| reach_PlaceAxes input viewport this :
    Reachable this ->
    Reachable (self (PlaceAxes input viewport this))
| reach_RenderOverlay this :
    Reachable this ->
    Reachable (self (RenderOverlay this))
| reach_RenderOpaqueGeometry viewport viewportNewer stale this :
    Reachable this ->
    Reachable (self (RenderOpaqueGeometry viewport viewportNewer stale this)).

(* ------------------------------------------------------------------ *)
(** ** Vocabulary of the properties *)

(** No axes: [N] is zero and the four arrays are [NULL]. *)
Definition Cleared (this : vtkParallelCoordinatesActor) : Prop :=
  N this = 0 /\ Axes this = None /\ Mins this = None
  /\ Maxs this = None /\ Xs this = None.

(** [N] axes: [N] is positive and the four arrays hold [N] entries each. *)
Definition Allocated (this : vtkParallelCoordinatesActor) : Prop :=
  0 < N this
  /\ exists axes mins maxs xs,
      Axes this = Some axes /\ Mins this = Some mins
      /\ Maxs this = Some maxs /\ Xs this = Some xs
      /\ length axes = Z.to_nat (N this)
      /\ length mins = Z.to_nat (N this)
      /\ length maxs = Z.to_nat (N this)
      /\ length xs = Z.to_nat (N this).

Definition Consistent (this : vtkParallelCoordinatesActor) : Prop :=
  Cleared this \/ Allocated this.

(** [Mins] and [Maxs] both hold [n] entries. *)
Definition both_length (n : nat) (mm : list Q * list Q) : Prop :=
  length (fst mm) = n /\ length (snd mm) = n.

(** What [PlaceAxes] computes: the axes, their ranges and positions, and
    the plot. *)
Definition Layout (this : vtkParallelCoordinatesActor) :=
  (N this, Axes this, Mins this, Maxs this, Xs this,
   YMin this, YMax this, PlotData this).

(** What a rebuild computes: the layout and the title position. *)
Definition Geometry (this : vtkParallelCoordinatesActor) :=
  (Layout this, TitlePosition this).

(** The members [PlaceAxes] reads from the actor. *)
Definition same_configuration (this that : vtkParallelCoordinatesActor)
  : Prop :=
  IndependentVariables that = IndependentVariables this
  /\ NumberOfLabels that = NumberOfLabels this
  /\ LabelFormat that = LabelFormat this.

(** The points of [tuples] polylines over [axes] axes, in the order they
    are inserted: tuple after tuple, axis after axis. *)
Definition GridPoints (point : nat -> nat -> Point) (tuples axes : list nat)
  : list Point :=
  flat_map (fun t => map (point t) axes) tuples.

(** The cells of [tuples] polylines of [axes] points each, every cell
    announced with [announced] points; ids start at [first]. *)
Definition GridCells (announced : Z) (first tuples axes : nat) : list Cell :=
  map (fun t =>
         mkCell announced
                (map (fun k => Z.of_nat (first + t * axes + k)) (seq 0 axes)))
      (seq 0 tuples).

(** The value of tuple [t] on axis [i], and the number of axes and of
    tuples, by mode. *)
Definition TupleValue (mode : IndependentVariablesMode)
    (field : vtkFieldData) (t i : Z) : Q :=
  match mode with
  | VTK_IV_COLUMN => GetComponent field t i
  | VTK_IV_ROW => GetComponent field i t
  end.

Definition AxisCount (mode : IndependentVariablesMode)
    (numColumns numRows : Z) : Z :=
  match mode with
  | VTK_IV_COLUMN => numColumns
  | VTK_IV_ROW => numRows
  end.

Definition TupleCount (mode : IndependentVariablesMode)
    (numColumns numRows : Z) : Z :=
  match mode with
  | VTK_IV_COLUMN => numRows
  | VTK_IV_ROW => numColumns
  end.

(** A field of one-component arrays, one array per column. *)
Definition TableField (columns : list (list Q)) : vtkFieldData :=
  {| GetNumberOfComponents := Z.of_nat (length columns);
     NumberOfTuples := map (fun c => Z.of_nat (length c)) columns;
     GetComponent := fun i j =>
       nth (Z.to_nat i) (nth (Z.to_nat j) columns []) 0%Q |}.


(** The values of [VTK_LARGE_ID] and [VTK_LARGE_FLOAT] on a build with
    32-bit ids, for the samples. *)
Definition sample_large_id : Z := 2147483647.

Definition sample_large_float : Q := inject_Z (10 ^ 38).

(** Sample data: a table of three columns whose middle one is constant,
    a viewport whose box spans (100,100)-(200,300), and an actor
    configured to plot the table. *)
Definition sample_table : vtkFieldData :=
  TableField [[0; 10; 4]; [5; 5; 5]; [-1; 1; 0]]%Q.

Definition sample_viewport : vtkViewport :=
  mkViewport (100, 100) (200, 300) (40, 12).


Definition ragged_table : vtkFieldData :=
  TableField [[0; 10]; [5; 5; 5]; [-1; 1]]%Q.

Definition one_column_table : vtkFieldData :=
  TableField [[1; 3]]%Q.

Definition sample_actor (mode : IndependentVariablesMode)
    (field : vtkFieldData) : vtkParallelCoordinatesActor :=
  Configure mode (Some (mkDataObject (Some field))) None 2 "%-#6.3g"%string
            (New 0 0 (0, 0)%Q).

(* ------------------------------------------------------------------ *)
(** ** The rest of the actor *)

(** [ReleaseGraphicsResources] (lines 489-496): the sub-actors asked to
    release their resources, in order.  The loop runs only while [Axes]
    is not null. *)
Definition ReleaseGraphicsResources (this : vtkParallelCoordinatesActor)
  : list RenderTarget :=
  TitleActor
  :: flat_map (fun i =>
                 match Axes this with
                 | Some a => match nth_error a i with
                             | Some axis => [AxisActor axis]
                             | None => []
                             end
                 | None => []
                 end)
              (upto (N this)).

(* ------------------------------------------------------------------ *)
(** ** More vocabulary *)

(** The least of [start] and the values, kept the way the scan keeps
    it; and the greatest. *)
Definition running_min (start : Q) (values : list Q) : Q :=
  fold_left (fun m v => if Qltb v m then v else m) values start.

Definition running_max (start : Q) (values : list Q) : Q :=
  fold_left (fun m v => if Qltb m v then v else m) values start.

(** The values the scan reads for axis [j], in the order it reads
    them. *)
Definition AxisValues (mode : IndependentVariablesMode)
    (field : vtkFieldData) (numColumns numRows : Z) (j : nat) : list Q :=
  map (fun t => TupleValue mode field (Z.of_nat t) (Z.of_nat j))
      (upto (TupleCount mode numColumns numRows)).

(** The title of an actor, as a render call. *)
Definition TitleCall (this : vtkParallelCoordinatesActor)
  : list RenderTarget :=
  match Title this with
  | Some _ => [TitleActor]
  | None => []
  end.

(** The sub-actors a log shows were asked to render. *)
Definition rendered_targets (events : list Event) : list RenderTarget :=
  flat_map (fun e => match e with
                     | Render _ target => [target]
                     | ErrorMacro _ => []
                     end)
           events.

(** More sample data: a table of three columns and no rows; text
    properties that hold one number, title and label sharing one
    object. *)
Definition no_rows_table : vtkFieldData :=
  TableField [[]; []; []].

Definition shared_text_properties : TextProperties Z :=
  mkTextProperties [0] (Some 0%nat) (Some 0%nat).

Definition sample_input : vtkDataObject :=
  mkDataObject (Some sample_table).

Definition sample_rendered : RenderPass -> RenderTarget -> Z :=
  fun _ _ => 1.

(* ------------------------------------------------------------------ *)
(** ** Loops and arrays *)

Lemma fold_left_invariant {A B : Type} (P : A -> Prop) (f : A -> B -> A)
    (l : list B) (a : A) :
  P a -> (forall a b, P a -> In b l -> P (f a b)) -> P (fold_left f l a).
Proof.
  revert a. induction l as [|b l IH]; intros a Ha Hf; simpl; auto.
  apply IH; [apply Hf; simpl; auto|].
  intros a' b' Ha' Hb'. apply Hf; simpl; auto.
Qed.

Lemma in_upto (n : Z) (i : nat) : In i (upto n) <-> (i < Z.to_nat n)%nat.
Proof. unfold upto. rewrite in_seq. lia. Qed.

Lemma length_upto (n : Z) : length (upto n) = Z.to_nat n.
Proof. apply length_seq. Qed.

Lemma NoDup_upto (n : Z) : NoDup (upto n).
Proof. apply seq_NoDup. Qed.

Lemma length_store {A : Type} (j : nat) (v : A) (a : list A) :
  length (store j v a) = length a.
Proof.
  revert j. induction a as [|h t IH]; intros [|k]; simpl; auto.
Qed.

Lemma nth_store_same {A : Type} (j : nat) (v d : A) (a : list A) :
  (j < length a)%nat -> nth j (store j v a) d = v.
Proof.
  revert j. induction a as [|h t IH]; intros [|k] Hj; simpl in *;
    try lia; auto.
  apply IH. lia.
Qed.

Lemma nth_store_other {A : Type} (j k : nat) (v d : A) (a : list A) :
  j <> k -> nth k (store j v a) d = nth k a d.
Proof.
  revert j k. induction a as [|h t IH]; intros [|j] [|k] Hjk; simpl;
    try reflexivity; try congruence.
  apply IH. congruence.
Qed.

(* ------------------------------------------------------------------ *)
(** ** Initialize and the outcome of PlaceAxes *)

Lemma Initialize_config (this : vtkParallelCoordinatesActor) :
  IndependentVariables (Initialize this) = IndependentVariables this
  /\ Input (Initialize this) = Input this
  /\ NumberOfLabels (Initialize this) = NumberOfLabels this
  /\ LabelFormat (Initialize this) = LabelFormat this
  /\ YMin (Initialize this) = YMin this
  /\ YMax (Initialize this) = YMax this
  /\ PlotData (Initialize this) = PlotData this
  /\ TitlePosition (Initialize this) = TitlePosition this
  /\ Title (Initialize this) = Title this.
Proof.
  unfold Initialize. destruct (Axes this); cbn; repeat split; reflexivity.
Qed.

Lemma Initialize_N (this : vtkParallelCoordinatesActor) :
  N (Initialize this) = 0 /\ Axes (Initialize this) = None.
Proof.
  unfold Initialize. destruct (Axes this) eqn:E; cbn; auto.
Qed.

Lemma Initialize_Cleared (this : vtkParallelCoordinatesActor) :
  Consistent this -> Cleared (Initialize this).
Proof.
  intros [(_ & Ha & Hmi & Hma & Hx) | (_ & a & mi & ma & xs & Ha & _)];
    unfold Initialize, Cleared; rewrite Ha; cbn; auto.
Qed.

Lemma Initialize_idempotent (this : vtkParallelCoordinatesActor) :
  Initialize (Initialize this) = Initialize this.
Proof.
  destruct this as [m n i [a|] mi ma xs y0 y1 t tp pd nl lf l1 l2];
    reflexivity.
Qed.

Lemma Initialize_fixed (this : vtkParallelCoordinatesActor) :
  N this = 0 -> Axes this = None -> Initialize this = this.
Proof.
  destruct this as [m n i a mi ma xs y0 y1 t tp pd nl lf l1 l2]; cbn.
  intros -> ->. reflexivity.
Qed.

(** The failure test of [PlaceAxes], as a proposition. *)
Lemma no_data_test (n : Z) :
  (n <=? 0) || (n >=? VTK_LARGE_ID) = true <-> n <= 0 \/ VTK_LARGE_ID <= n.
Proof.
  rewrite orb_true_iff, Z.leb_le, Z.geb_le. tauto.
Qed.

Lemma PlaceAxes_no_field input viewport this :
  GetFieldData input = None ->
  PlaceAxes input viewport this = mkResult 0 [] (Initialize this).
Proof. intros H. unfold PlaceAxes. rewrite H. reflexivity. Qed.

Lemma PlaceAxes_failure input viewport this field :
  GetFieldData input = Some field ->
  (let n := CountVariables (IndependentVariables this) field in
   n <= 0 \/ VTK_LARGE_ID <= n) ->
  PlaceAxes input viewport this
  = mkResult 0 [ErrorMacro "No field data to plot"%string]
             (set_N (Initialize this) 0).
Proof.
  intros Hf Hn. unfold PlaceAxes. rewrite Hf.
  destruct (Initialize_config this) as (-> & _).
  apply no_data_test in Hn. cbv zeta in Hn. rewrite Hn. reflexivity.
Qed.

Lemma PlaceAxes_ret input viewport this :
  ret (PlaceAxes input viewport this) = 1
  <-> exists field,
      GetFieldData input = Some field
      /\ 0 < CountVariables (IndependentVariables this) field < VTK_LARGE_ID.
Proof.
  unfold PlaceAxes.
  destruct (Initialize_config this) as (-> & _).
  destruct (GetFieldData input) as [field|]; cbn.
  - destruct (_ || _) eqn:E; cbn.
    + apply no_data_test in E. split; [discriminate|].
      intros (f & [= <-] & H). lia.
    + split; [intros _|reflexivity]. exists field. split; [reflexivity|].
      destruct (Z_le_gt_dec (CountVariables (IndependentVariables this) field) 0)
        as [H|H].
      * assert (X : (CountVariables (IndependentVariables this) field <=? 0)
                    || (CountVariables (IndependentVariables this) field
                        >=? VTK_LARGE_ID) = true)
          by (apply no_data_test; auto).
        congruence.
      * destruct (Z_le_gt_dec VTK_LARGE_ID
                    (CountVariables (IndependentVariables this) field))
          as [H'|H']; [|lia].
        assert (X : (CountVariables (IndependentVariables this) field <=? 0)
                    || (CountVariables (IndependentVariables this) field
                        >=? VTK_LARGE_ID) = true)
          by (apply no_data_test; auto).
        congruence.
  - split; [discriminate|]. intros (f & H & _). discriminate.
Qed.

Lemma PlaceAxes_success input viewport this field :
  GetFieldData input = Some field ->
  0 < CountVariables (IndependentVariables this) field < VTK_LARGE_ID ->
  let mode := IndependentVariables this in
  let n := CountVariables mode field in
  let mins := fst (FindRanges mode field) in
  let maxs := snd (FindRanges mode field) in
  let ymin := snd (Position viewport) in
  let ymax := snd (Position2 viewport) in
  let xs := AxisPositions viewport n in
  let plot := PlotLines mode field (GetNumberOfComponents field)
                (NumRows field) xs mins maxs ymin ymax in
  PlaceAxes input viewport this
  = mkResult 1 []
      (set_layout (Initialize this) n
         (Some (MakeAxes (Initialize this) mins maxs xs ymin ymax n))
         (Some mins) (Some maxs) (Some xs) ymin ymax
         (mkPolyData (fst plot) (snd plot))).
Proof.
  intros Hf Hn. unfold PlaceAxes. rewrite Hf.
  destruct (Initialize_config this) as (-> & _).
  destruct (_ || _) eqn:E; [|reflexivity].
  apply no_data_test in E. lia.
Qed.

Lemma PlaceAxes_cases input this :
  GetFieldData input = None
  \/ (exists field, GetFieldData input = Some field
      /\ (CountVariables (IndependentVariables this) field <= 0
          \/ VTK_LARGE_ID <= CountVariables (IndependentVariables this) field))
  \/ (exists field, GetFieldData input = Some field
      /\ 0 < CountVariables (IndependentVariables this) field < VTK_LARGE_ID).
Proof.
  destruct (GetFieldData input) as [field|]; [right|left; reflexivity].
  destruct (Z_le_gt_dec (CountVariables (IndependentVariables this) field) 0);
    [left; eauto|].
  destruct (Z_le_gt_dec VTK_LARGE_ID
              (CountVariables (IndependentVariables this) field));
    [left; eauto|].
  right. exists field. split; [reflexivity|lia].
Qed.

(* ------------------------------------------------------------------ *)
(** ** The arrays keep their length through the scan *)

Lemma ScanValue_length n j v mm :
  both_length n mm -> both_length n (ScanValue j v mm).
Proof.
  destruct mm as [mins maxs]. unfold both_length, ScanValue. cbn.
  intros [H1 H2].
  destruct (Qltb v _), (Qltb _ v); cbn; rewrite ?length_store; auto.
Qed.

Lemma ScanRanges_length n mode field numColumns numRows mm :
  both_length n mm ->
  both_length n (ScanRanges mode field numColumns numRows mm).
Proof.
  intros H. destruct mode; cbn.
  all: apply fold_left_invariant; [exact H|]; intros mm1 j H1 _.
  all: apply fold_left_invariant; [exact H1|]; intros mm2 i H2 _.
  all: apply ScanValue_length; exact H2.
Qed.

Lemma FindRanges_length mode field :
  both_length (Z.to_nat (CountVariables mode field)) (FindRanges mode field).
Proof.
  unfold FindRanges. apply ScanRanges_length.
  split; cbn; apply repeat_length.
Qed.

Lemma length_AxisPositions viewport n :
  length (AxisPositions viewport n) = Z.to_nat n.
Proof. unfold AxisPositions. rewrite length_map. apply length_upto. Qed.

Lemma length_MakeAxes this mins maxs xs ymin ymax n :
  length (MakeAxes this mins maxs xs ymin ymax n) = Z.to_nat n.
Proof. unfold MakeAxes. rewrite length_map. apply length_upto. Qed.

(* ------------------------------------------------------------------ *)
(** ** Consistency of the axis count and the arrays *)

Lemma Consistent_same_arrays this that :
  N that = N this -> Axes that = Axes this -> Mins that = Mins this ->
  Maxs that = Maxs this -> Xs that = Xs this ->
  Consistent this -> Consistent that.
Proof.
  unfold Consistent, Cleared, Allocated.
  intros -> -> -> -> ->. auto.
Qed.

Lemma Cleared_set_N_zero this : Cleared this -> Cleared (set_N this 0).
Proof. unfold Cleared. cbn. tauto. Qed.

(** A layout pass ends in one of two ways: it failed and there are no
    axes, or it succeeded and there are [N] of everything. *)
Lemma PlaceAxes_outcome input viewport this :
  Consistent this ->
  (ret (PlaceAxes input viewport this) = 0
   /\ Cleared (self (PlaceAxes input viewport this)))
  \/ (ret (PlaceAxes input viewport this) = 1
      /\ Allocated (self (PlaceAxes input viewport this))).
Proof.
  intros Hc. pose proof (Initialize_Cleared this Hc) as Hi.
  destruct (PlaceAxes_cases input this)
    as [Hf | [(field & Hf & Hn) | (field & Hf & Hn)]].
  - rewrite PlaceAxes_no_field by exact Hf. left. split; [reflexivity|].
    exact Hi.
  - rewrite (PlaceAxes_failure _ _ _ _ Hf) by exact Hn.
    left. split; [reflexivity|]. apply Cleared_set_N_zero, Hi.
  - rewrite (PlaceAxes_success _ _ _ _ Hf) by exact Hn.
    right. split; [reflexivity|]. split; cbn; [lia|].
    destruct (FindRanges_length (IndependentVariables this) field)
      as [Hmi Hma].
    do 4 eexists. repeat split; try reflexivity.
    + apply length_MakeAxes.
    + exact Hmi.
    + exact Hma.
    + apply length_AxisPositions.
Qed.

Lemma PlaceAxes_Consistent input viewport this :
  Consistent this -> Consistent (self (PlaceAxes input viewport this)).
Proof.
  intros Hc.
  destruct (PlaceAxes_outcome input viewport this Hc) as [[_ H]|[_ H]];
    [left|right]; exact H.
Qed.

Lemma RenderOverlay_self this : self (RenderOverlay this) = this.
Proof.
  unfold RenderOverlay. destruct (Input this); [|reflexivity].
  destruct (N this <=? 0); reflexivity.
Qed.

Lemma RenderOpaqueGeometry_Consistent viewport viewportNewer stale this :
  Consistent this ->
  Consistent (self (RenderOpaqueGeometry viewport viewportNewer stale this)).
Proof.
  intros Hc. unfold RenderOpaqueGeometry.
  destruct (Input this) as [input|]; [|exact Hc].
  set (moved := viewportNewer && _).
  set (that := if moved then _ else this).
  assert (Ht : Consistent that).
  { subst that. destruct moved; [|exact Hc].
    revert Hc. apply Consistent_same_arrays; reflexivity. }
  destruct (moved || stale); [|exact Ht].
  pose proof (PlaceAxes_Consistent input viewport that Ht) as Hp.
  unfold Rebuild.
  destruct (ret _ =? 0); cbn; [exact Hp|].
  revert Hp. apply Consistent_same_arrays; reflexivity.
Qed.

Lemma Reachable_Consistent this : Reachable this -> Consistent this.
Proof.
  induction 1 as [ymin ymax tp | mode input title labels format this _ IH
                 | this _ IH | input viewport this _ IH | this _ IH
                 | viewport b1 b2 this _ IH].
  - left. unfold Cleared. cbn. auto.
  - revert IH. apply Consistent_same_arrays; reflexivity.
  - left. apply Initialize_Cleared, IH.
  - apply PlaceAxes_Consistent, IH.
  - rewrite RenderOverlay_self. exact IH.
  - apply RenderOpaqueGeometry_Consistent, IH.
Qed.

(** C10: the axis count and the per-axis arrays agree on every actor a
    program can reach: either [N] is zero and [Axes], [Mins], [Maxs],
    [Xs] are all null, or [N] is positive and each of the four holds
    exactly [N] entries.  On such an actor [Initialize] leaves the
    all-null state with [N] zero, and [PlaceAxes] starts from that state:
    laying out the actor and laying out the initialised actor are the
    same, so nothing of an earlier layout reaches the new one; a layout
    that fails leaves the all-null state, one that succeeds leaves [N]
    entries in each array. *)
Theorem layout_members_consistent (this : vtkParallelCoordinatesActor) :
  Reachable this ->
  Consistent this
  /\ Cleared (Initialize this)
  /\ forall input viewport,
       let placed := PlaceAxes input viewport this in
       placed = PlaceAxes input viewport (Initialize this)
       /\ (ret placed = 0 -> Cleared (self placed))
       /\ (ret placed = 1 -> Allocated (self placed)).
Proof.
  intros Hr. pose proof (Reachable_Consistent this Hr) as Hc.
  split; [exact Hc|]. split; [apply Initialize_Cleared, Hc|].
  intros input viewport placed. subst placed. split.
  - unfold PlaceAxes. rewrite Initialize_idempotent. reflexivity.
  - destruct (PlaceAxes_outcome input viewport this Hc) as [[E H]|[E H]];
      rewrite E; split; intros X; try discriminate; exact H.
Qed.

(** C4: when the field yields a variable count [N <= 0] or
    [N >= VTK_LARGE_ID], [PlaceAxes] returns 0, [N] is 0, the axes and the
    arrays of ranges and positions are null, and the plot data is left as
    it was: nothing was created. *)
Theorem PlaceAxes_no_data input viewport this field :
  Consistent this ->
  GetFieldData input = Some field ->
  CountVariables (IndependentVariables this) field <= 0
  \/ VTK_LARGE_ID <= CountVariables (IndependentVariables this) field ->
  let placed := PlaceAxes input viewport this in
  ret placed = 0
  /\ Cleared (self placed)
  /\ PlotData (self placed) = PlotData this.
Proof.
  intros Hc Hf Hn placed. subst placed.
  rewrite (PlaceAxes_failure _ _ _ _ Hf) by exact Hn. cbn.
  split; [reflexivity|]. split.
  - apply Cleared_set_N_zero, Initialize_Cleared, Hc.
  - apply Initialize_config.
Qed.

(** C9: when the input is null or [N <= 0], [RenderOverlay] reports
    "Nothing to plot!", returns 0, and asks no sub-actor to render. *)
Theorem RenderOverlay_nothing_to_plot this :
  Input this = None \/ N this <= 0 ->
  RenderOverlay this
  = mkResult 0 [ErrorMacro "Nothing to plot!"%string] this.
Proof.
  intros H. unfold RenderOverlay.
  destruct (Input this) as [input|]; [|reflexivity].
  destruct H as [H|H]; [discriminate|].
  apply Z.leb_le in H. rewrite H. reflexivity.
Qed.

(* ------------------------------------------------------------------ *)
(** ** The row count *)

Lemma lowest_count (counts : list Z) (start : Z) :
  let numRows :=
    fold_left (fun numRows numTuples =>
                 if numTuples <? numRows then numTuples else numRows)
              counts start in
  numRows <= start
  /\ (forall t, In t counts -> numRows <= t)
  /\ (numRows = start \/ In numRows counts).
Proof.
  revert start. induction counts as [|c counts IH]; intros start; simpl.
  - split; [lia|]. split; [contradiction|auto].
  - destruct (Z.ltb_spec c start) as [Hlt|Hge].
    + destruct (IH c) as (H1 & H2 & H3). split; [lia|]. split.
      * intros t [<-|Ht]; auto.
      * destruct H3 as [H3|H3]; auto.
    + destruct (IH start) as (H1 & H2 & H3). split; [lia|]. split.
      * intros t [<-|Ht]; [lia|auto].
      * destruct H3 as [H3|H3]; auto.
Qed.

(** C7: the row count is the least tuple count of the field's arrays:
    it is the count of one of them and no array has fewer.  A field whose
    arrays differ in length is laid out all the same: in row mode the
    layout succeeds with [N] equal to that least count. *)
Theorem NumRows_least_tuple_count (field : vtkFieldData) :
  NumberOfTuples field <> [] ->
  (forall t, In t (NumberOfTuples field) -> t <= VTK_LARGE_ID) ->
  In (NumRows field) (NumberOfTuples field)
  /\ (forall t, In t (NumberOfTuples field) ->
       NumRows field <= t)
  /\ forall input viewport this,
       GetFieldData input = Some field ->
       IndependentVariables this = VTK_IV_ROW ->
       0 < NumRows field < VTK_LARGE_ID ->
       ret (PlaceAxes input viewport this) = 1
       /\ N (self (PlaceAxes input viewport this))
          = NumRows field.
Proof.
  intros Hne Hle.
  destruct (lowest_count (NumberOfTuples field) VTK_LARGE_ID)
    as (H1 & H2 & H3).
  fold (NumRows field) in H1, H2, H3.
  split; [|split; [exact H2|]].
  - destruct H3 as [H3|H3]; [|exact H3].
    destruct (NumberOfTuples field) as [|t ts] eqn:E; [congruence|].
    assert (Ht : In t (t :: ts)) by (simpl; auto).
    pose proof (H2 t Ht). pose proof (Hle t Ht).
    replace (NumRows field) with t by lia. exact Ht.
  - intros input viewport this Hf Hm Hn.
    rewrite (PlaceAxes_success _ _ _ _ Hf) by (rewrite Hm; exact Hn).
    rewrite Hm. cbn. auto.
Qed.

(* ------------------------------------------------------------------ *)
(** ** The range scan *)

Lemma Qltb_true (x y : Q) : Qltb x y = true -> (x < y)%Q.
Proof.
  unfold Qltb. intros H. apply negb_true_iff in H.
  apply Qnot_le_lt. intros Hle. apply Qle_bool_iff in Hle. congruence.
Qed.

Lemma Qltb_false (x y : Q) : Qltb x y = false -> (y <= x)%Q.
Proof.
  unfold Qltb. intros H. apply negb_false_iff in H.
  apply Qle_bool_iff. exact H.
Qed.

(** What one visit does to variable [j] and to the others. *)
Lemma ScanValue_spec n j v mm :
  both_length n mm -> (j < n)%nat ->
  let mm' := ScanValue j v mm in
  (nth j (fst mm') 0 <= v <= nth j (snd mm') 0)%Q
  /\ (nth j (fst mm') 0 <= nth j (fst mm) 0)%Q
  /\ (nth j (snd mm) 0 <= nth j (snd mm') 0)%Q
  /\ forall k, k <> j ->
       nth k (fst mm') 0%Q = nth k (fst mm) 0%Q
       /\ nth k (snd mm') 0%Q = nth k (snd mm) 0%Q.
Proof.
  destruct mm as [mins maxs]. unfold both_length, ScanValue. cbn.
  intros [H1 H2] Hj.
  destruct (Qltb v (nth j mins 0%Q)) eqn:E1;
    destruct (Qltb (nth j maxs 0%Q) v) eqn:E2; cbn.
  all: try apply Qltb_true in E1; try apply Qltb_false in E1.
  all: try apply Qltb_true in E2; try apply Qltb_false in E2.
  all: rewrite ?nth_store_same by lia.
  all: split; [split|split; [|split]].
  all: try apply Qle_refl; try (apply Qlt_le_weak; assumption);
    try assumption.
  all: intros k Hk; rewrite ?nth_store_other by congruence; auto.
Qed.

(** The visits of one variable [j], over the indices [visits]. *)
Lemma scan_variable n j (value : nat -> Q) (visits : list nat) mm :
  both_length n mm -> (j < n)%nat ->
  let mm' := fold_left (fun mm i => ScanValue j (value i) mm) visits mm in
  both_length n mm'
  /\ (forall i, In i visits ->
       (nth j (fst mm') 0 <= value i <= nth j (snd mm') 0)%Q)
  /\ (nth j (fst mm') 0 <= nth j (fst mm) 0)%Q
  /\ (nth j (snd mm) 0 <= nth j (snd mm') 0)%Q
  /\ forall k, k <> j ->
       nth k (fst mm') 0%Q = nth k (fst mm) 0%Q
       /\ nth k (snd mm') 0%Q = nth k (snd mm) 0%Q.
Proof.
  intros Hlen Hj. revert mm Hlen.
  induction visits as [|i visits IH]; intros mm Hlen; simpl.
  - split; [exact Hlen|]. split; [contradiction|].
    repeat split; try apply Qle_refl.
  - pose proof (ScanValue_length n j (value i) mm Hlen) as Hlen1.
    destruct (ScanValue_spec n j (value i) mm Hlen Hj)
      as ((Ha & Hb) & Hc & Hd & He).
    destruct (IH _ Hlen1) as (Hl & Hin & Hlo & Hhi & Hother).
    split; [exact Hl|]. split; [|split; [|split]].
    + intros i' [<-|Hi']; [|auto]. split.
      * eapply Qle_trans; [exact Hlo|exact Ha].
      * eapply Qle_trans; [exact Hb|exact Hhi].
    + eapply Qle_trans; [exact Hlo|exact Hc].
    + eapply Qle_trans; [exact Hd|exact Hhi].
    + intros k Hk. destruct (Hother k Hk) as [-> ->]. apply He, Hk.
Qed.

(** The whole scan: every variable of [js] is visited once. *)
Lemma scan_all n (value : nat -> nat -> Q) (js visits : list nat) mm :
  both_length n mm -> NoDup js -> (forall j, In j js -> (j < n)%nat) ->
  let mm' :=
    fold_left (fun mm j =>
                 fold_left (fun mm i => ScanValue j (value j i) mm) visits mm)
              js mm in
  both_length n mm'
  /\ (forall j i, In j js -> In i visits ->
       (nth j (fst mm') 0 <= value j i <= nth j (snd mm') 0)%Q)
  /\ forall k, ~ In k js ->
       nth k (fst mm') 0%Q = nth k (fst mm) 0%Q
       /\ nth k (snd mm') 0%Q = nth k (snd mm) 0%Q.
Proof.
  intros Hlen Hnd Hjs. revert mm Hlen.
  induction js as [|j js IH]; intros mm Hlen; simpl.
  - split; [exact Hlen|]. split; [contradiction|auto].
  - inversion Hnd as [|j' js' Hnotin Hnd']; subst.
    assert (Hj : (j < n)%nat) by (apply Hjs; simpl; auto).
    destruct (scan_variable n j (value j) visits mm Hlen Hj)
      as (Hl1 & Hin1 & _ & _ & Hother1).
    destruct (IH Hnd' (fun j' H => Hjs j' (or_intror H)) _ Hl1)
      as (Hl & Hin & Hother).
    split; [exact Hl|]. split.
    + intros j' i [<-|Hj'] Hi; [|auto].
      destruct (Hother j Hnotin) as [-> ->]. apply Hin1, Hi.
    + intros k Hk.
      assert (Hk1 : ~ In k js) by (intros X; apply Hk; simpl; auto).
      assert (Hk2 : k <> j) by (intros X; apply Hk; simpl; auto).
      destruct (Hother k Hk1) as [-> ->]. apply Hother1, Hk2.
Qed.

(* ------------------------------------------------------------------ *)
(** ** The polylines *)

Lemma InsertCellPoint_cons c0 c1 rest id :
  InsertCellPoint (c0 :: c1 :: rest) id
  = c0 :: InsertCellPoint (c1 :: rest) id.
Proof. reflexivity. Qed.

Lemma InsertCellPoint_last lines c id :
  InsertCellPoint (lines ++ [c]) id
  = lines ++ [mkCell (npts c) (ptIds c ++ [id])].
Proof.
  induction lines as [|c0 lines IH]; [reflexivity|].
  rewrite <- !app_comm_cons, <- IH.
  destruct (lines ++ [c]) eqn:E.
  - destruct lines; discriminate.
  - apply InsertCellPoint_cons.
Qed.

(** One polyline: the inner loop fills the cell just opened. *)
Lemma plot_cell (point : nat -> Point) (axes : list nat) pts lines n ids :
  fold_left (fun pl i => PlotVertex (point i) pl) axes
            (pts, lines ++ [mkCell n ids])
  = (pts ++ map point axes,
     lines ++ [mkCell n (ids ++ map (fun k => Z.of_nat (length pts + k))
                                    (seq 0 (length axes)))]).
Proof.
  revert pts ids. induction axes as [|i axes IH]; intros pts ids; simpl.
  - rewrite !app_nil_r. reflexivity.
  - rewrite InsertCellPoint_last. cbn [npts ptIds]. rewrite IH.
    rewrite <- !app_assoc. simpl. rewrite Nat.add_0_r.
    rewrite <- seq_shift, map_map.
    do 6 f_equal.
    apply map_ext. intros k. rewrite length_app. simpl. f_equal. lia.
Qed.

(** All polylines: the outer loop opens one cell per tuple. *)
Lemma plot_cells (point : nat -> nat -> Point) (tuples axes : list nat)
    (n : Z) pts lines :
  fold_left (fun pl j =>
               fold_left (fun pl i => PlotVertex (point j i) pl) axes
                         (fst pl, InsertNextCell (snd pl) n))
            tuples (pts, lines)
  = (pts ++ GridPoints point tuples axes,
     lines ++ GridCells n (length pts) (length tuples) (length axes)).
Proof.
  revert pts lines.
  induction tuples as [|j tuples IH]; intros pts lines; simpl.
  - rewrite !app_nil_r. reflexivity.
  - unfold InsertNextCell. rewrite plot_cell, IH. simpl.
    rewrite <- !app_assoc. do 2 f_equal.
    unfold GridCells. simpl. rewrite Nat.add_0_r. f_equal.
    rewrite <- seq_shift, map_map.
    apply map_ext. intros t. f_equal.
    apply map_ext. intros k. rewrite length_app, length_map. f_equal. lia.
Qed.

Lemma PlotLines_grid mode field numColumns numRows xs mins maxs ymin ymax :
  PlotLines mode field numColumns numRows xs mins maxs ymin ymax
  = (GridPoints
       (fun t i => PlotPoint xs mins maxs ymin ymax i
                     (TupleValue mode field (Z.of_nat t) (Z.of_nat i)))
       (upto (TupleCount mode numColumns numRows))
       (upto (AxisCount mode numColumns numRows)),
     GridCells numColumns 0
       (Z.to_nat (TupleCount mode numColumns numRows))
       (Z.to_nat (AxisCount mode numColumns numRows))).
Proof.
  destruct mode; cbn [PlotLines TupleCount AxisCount TupleValue].
  all: rewrite plot_cells; simpl; rewrite !length_upto; reflexivity.
Qed.

(* ------------------------------------------------------------------ *)
(** ** The axis positions *)




(* ------------------------------------------------------------------ *)
(** ** Rebuilding again *)

Lemma PlaceAxes_keeps input viewport this :
  same_configuration this (self (PlaceAxes input viewport this))
  /\ Input (self (PlaceAxes input viewport this)) = Input this
  /\ TitlePosition (self (PlaceAxes input viewport this)) = TitlePosition this.
Proof.
  unfold PlaceAxes, same_configuration.
  destruct this as [m n i [a|] mi ma xs y0 y1 t tp pd nl lf l1 l2]; cbn.
  all: destruct (GetFieldData input) as [field|]; cbn; [|tauto].
  all: destruct (_ || _); cbn; tauto.
Qed.

Lemma MakeAxes_configuration this that mins maxs xs ymin ymax n :
  same_configuration this that ->
  MakeAxes (Initialize that) mins maxs xs ymin ymax n
  = MakeAxes (Initialize this) mins maxs xs ymin ymax n.
Proof.
  intros (_ & H2 & H3). unfold MakeAxes.
  destruct (Initialize_config this) as (_ & _ & -> & -> & _).
  destruct (Initialize_config that) as (_ & _ & -> & -> & _).
  rewrite H2, H3. reflexivity.
Qed.

Lemma Layout_members this that :
  Layout that = Layout this ->
  N that = N this /\ Axes that = Axes this /\ Mins that = Mins this
  /\ Maxs that = Maxs this /\ Xs that = Xs this /\ YMin that = YMin this
  /\ YMax that = YMax this /\ PlotData that = PlotData this.
Proof. unfold Layout. intros [= -> -> -> -> -> -> -> ->]. tauto. Qed.

Lemma Geometry_members this that :
  Geometry that = Geometry this ->
  Layout that = Layout this /\ TitlePosition that = TitlePosition this.
Proof.
  unfold Geometry. intros H.
  split; [exact (f_equal fst H)|exact (f_equal snd H)].
Qed.

(** Laying out an actor that already carries the layout changes
    nothing. *)
Lemma PlaceAxes_again input viewport this that :
  same_configuration this that ->
  Layout that = Layout (self (PlaceAxes input viewport this)) ->
  ret (PlaceAxes input viewport that) = ret (PlaceAxes input viewport this)
  /\ Layout (self (PlaceAxes input viewport that)) = Layout that.
Proof.
  intros Hc Hl. pose proof Hc as (Hm & _).
  destruct (PlaceAxes_cases input this)
    as [Hf | [(field & Hf & Hn) | (field & Hf & Hn)]].
  - rewrite (PlaceAxes_no_field _ _ this) in * by exact Hf.
    rewrite (PlaceAxes_no_field _ _ that) by exact Hf.
    apply Layout_members in Hl. destruct Hl as (H1 & H2 & _).
    destruct (Initialize_N this) as [E1 E2]. cbn [self] in *.
    rewrite Initialize_fixed by congruence. auto.
  - rewrite (PlaceAxes_failure _ _ this _ Hf) in * by exact Hn.
    rewrite (PlaceAxes_failure _ _ that _ Hf) by (rewrite Hm; exact Hn).
    apply Layout_members in Hl. destruct Hl as (H1 & H2 & _).
    destruct (Initialize_N this) as [E1 E2].
    change (N that = 0) in H1.
    change (Axes that = Axes (Initialize this)) in H2.
    rewrite Initialize_fixed by congruence. split; [reflexivity|].
    cbn [self]. unfold Layout. cbn. congruence.
  - rewrite (PlaceAxes_success _ _ this _ Hf) in * by exact Hn.
    rewrite (PlaceAxes_success _ _ that _ Hf) by (rewrite Hm; exact Hn).
    split; [reflexivity|]. rewrite Hl. rewrite Hm.
    unfold Layout. cbn.
    rewrite (MakeAxes_configuration this that) by exact Hc.
    reflexivity.
Qed.

Lemma TitleAt_Layout viewport this that :
  Layout that = Layout this -> TitleAt viewport that = TitleAt viewport this.
Proof.
  intros H. apply Layout_members in H.
  destruct H as (H1 & _ & _ & _ & H5 & _ & H7 & _).
  unfold TitleAt. rewrite H1, H5, H7. reflexivity.
Qed.

Lemma Rebuild_keeps input viewport this :
  same_configuration this (self (Rebuild input viewport this))
  /\ Input (self (Rebuild input viewport this)) = Input this.
Proof.
  destruct (PlaceAxes_keeps input viewport this) as (H1 & H2 & _).
  unfold Rebuild. destruct (ret _ =? 0); cbn; auto.
Qed.

Lemma Rebuild_again input viewport this that :
  same_configuration this that ->
  Geometry that = Geometry (self (Rebuild input viewport this)) ->
  Geometry (self (Rebuild input viewport that)) = Geometry that.
Proof.
  intros Hc Hg. apply Geometry_members in Hg. destruct Hg as [Hl Ht].
  destruct (PlaceAxes_keeps input viewport this) as (_ & _ & Kt).
  destruct (PlaceAxes_keeps input viewport that) as (_ & _ & Kt').
  unfold Rebuild in *.
  destruct (ret (PlaceAxes input viewport this) =? 0) eqn:E; cbn [self] in *.
  - destruct (PlaceAxes_again input viewport this that Hc Hl) as [Hr Hl'].
    rewrite Hr, E. cbn [self]. unfold Geometry. congruence.
  - assert (Hl0 : Layout that = Layout (self (PlaceAxes input viewport this)))
      by exact Hl.
    destruct (PlaceAxes_again input viewport this that Hc Hl0) as [Hr Hl'].
    rewrite Hr, E. cbn [self]. unfold Geometry. f_equal.
    + exact Hl'.
    + cbn. rewrite (TitleAt_Layout viewport _ _ Hl'). rewrite Ht. cbn.
      apply TitleAt_Layout. exact Hl0.
Qed.

(** C8: render twice with the same input, mode and viewport, the first
    time rebuilding: whether the second call rebuilds again or not, the
    geometry after it (axes, ranges, positions, title position, points
    and lines) is equal to the geometry after the first.  And laying out
    an actor that was just laid out gives the same layout again. *)
Theorem rebuild_twice_same_geometry viewport viewportNewer again stale this :
  let first := RenderOpaqueGeometry viewport viewportNewer true this in
  let second := RenderOpaqueGeometry viewport again stale (self first) in
  Geometry (self second) = Geometry (self first)
  /\ forall input,
       Layout (self (PlaceAxes input viewport
                       (self (PlaceAxes input viewport this))))
       = Layout (self (PlaceAxes input viewport this)).
Proof.
  cbv zeta. split.
  2:{ intros input.
      destruct (PlaceAxes_keeps input viewport this) as (Hc & _).
      apply (PlaceAxes_again input viewport this _ Hc). reflexivity. }
  unfold RenderOpaqueGeometry at 2 3.
  destruct (Input this) as [input|] eqn:Hi.
  2:{ cbn [self]. unfold RenderOpaqueGeometry. rewrite Hi. reflexivity. }
  set (moved := viewportNewer && _).
  set (this1 := if moved then _ else this).
  rewrite orb_true_r.
  assert (Hi1 : Input this1 = Some input)
    by (subst this1; destruct moved; exact Hi).
  clearbody this1. clear moved.
  destruct (Rebuild_keeps input viewport this1) as (Hc & Hin).
  set (built := self (Rebuild input viewport this1)) in *.
  unfold RenderOpaqueGeometry. rewrite Hin, Hi1.
  set (moved := again && _).
  set (that := if moved then _ else built).
  assert (Hg : Geometry that = Geometry built)
    by (subst that; destruct moved; reflexivity).
  assert (Hc' : same_configuration this1 that)
    by (subst that; destruct moved; exact Hc).
  destruct (moved || stale); [|exact Hg].
  rewrite (Rebuild_again input viewport this1 that Hc' Hg). exact Hg.
Qed.

(* ------------------------------------------------------------------ *)
(** ** What the plot of a layout holds *)

(** A constant variable is drawn at half the height of the box, counted
    from zero. *)
Lemma degenerate_axis_height lo hi ymin ymax v :
  (hi - lo == 0)%Q ->
  PlotY lo hi ymin ymax v = ((1 # 2) * inject_Z (ymax - ymin))%Q.
Proof.
  intros H. unfold PlotY. apply Qeq_bool_iff in H. rewrite H. reflexivity.
Qed.

(** That height is the middle of the box only when the box starts at
    zero. *)
Lemma degenerate_axis_midpoint lo hi ymin ymax v :
  (hi - lo == 0)%Q ->
  (PlotY lo hi ymin ymax v == (inject_Z ymin + inject_Z ymax) / 2)%Q
  <-> ymin = 0.
Proof.
  intros H. rewrite (degenerate_axis_height _ _ _ _ _ H).
  unfold Z.sub. rewrite inject_Z_plus, inject_Z_opp.
  assert (X : ((inject_Z ymin + inject_Z ymax) / 2
               == (1 # 2) * (inject_Z ymin + inject_Z ymax))%Q) by field.
  rewrite X. split.
  - intros E. assert (E' : (inject_Z ymin == inject_Z 0)%Q).
    { change (inject_Z 0) with 0%Q. lra. }
    unfold Qeq in E'. simpl in E'. lia.
  - intros ->. change (inject_Z 0) with 0%Q. lra.
Qed.

(** The cells of a successful layout: one per tuple, each holding [N]
    point ids in axis order, and each announced with [numColumns]
    points. *)
Lemma PlaceAxes_polylines input viewport this field :
  GetFieldData input = Some field ->
  ret (PlaceAxes input viewport this) = 1 ->
  let placed := self (PlaceAxes input viewport this) in
  let tuples :=
    TupleCount (IndependentVariables this) (GetNumberOfComponents field)
               (NumRows field) in
  Lines (PlotData placed)
  = GridCells (GetNumberOfComponents field) 0
              (Z.to_nat tuples) (Z.to_nat (N placed)).
Proof.
  intros Hf Hret. apply PlaceAxes_ret in Hret.
  destruct Hret as (field' & Hf' & Hn).
  assert (field' = field) by congruence. subst field'.
  rewrite (PlaceAxes_success _ _ _ _ Hf Hn). cbn.
  rewrite PlotLines_grid. cbn [snd].
  destruct (IndependentVariables this); reflexivity.
Qed.

(** In column mode that is one polyline per row, of [N] vertices. *)
Lemma column_mode_polylines input viewport this field :
  GetFieldData input = Some field ->
  IndependentVariables this = VTK_IV_COLUMN ->
  ret (PlaceAxes input viewport this) = 1 ->
  let placed := self (PlaceAxes input viewport this) in
  length (Lines (PlotData placed)) = Z.to_nat (NumRows field)
  /\ forall c, In c (Lines (PlotData placed)) ->
       npts c = N placed /\ length (ptIds c) = Z.to_nat (N placed).
Proof.
  intros Hf Hm Hret placed. subst placed.
  rewrite (PlaceAxes_polylines _ _ _ _ Hf Hret). rewrite Hm.
  apply PlaceAxes_ret in Hret. destruct Hret as (field' & Hf' & Hn).
  assert (field' = field) by congruence. subst field'.
  rewrite (PlaceAxes_success _ _ _ _ Hf Hn). rewrite Hm. cbn.
  unfold GridCells. rewrite length_map, length_seq. split; [reflexivity|].
  intros c Hc. apply in_map_iff in Hc. destruct Hc as (t & <- & _). cbn.
  rewrite length_map, length_seq. auto.
Qed.

(* ------------------------------------------------------------------ *)
(** ** The ranges, axis by axis *)

(** One visit, seen from the variable visited. *)
Lemma ScanValue_at n j v mm :
  both_length n mm -> (j < n)%nat ->
  nth j (fst (ScanValue j v mm)) 0%Q
  = (if Qltb v (nth j (fst mm) 0%Q) then v else nth j (fst mm) 0%Q)
  /\ nth j (snd (ScanValue j v mm)) 0%Q
     = (if Qltb (nth j (snd mm) 0%Q) v then v else nth j (snd mm) 0%Q).
Proof.
  destruct mm as [mins maxs]. unfold both_length, ScanValue. cbn.
  intros [H1 H2] Hj.
  destruct (Qltb v _), (Qltb _ v); cbn;
    rewrite ?nth_store_same by lia; auto.
Qed.

(** The visits of one variable keep its running minimum and maximum. *)
Lemma scan_variable_at n j (value : nat -> Q) (visits : list nat) mm :
  both_length n mm -> (j < n)%nat ->
  let mm' := fold_left (fun mm i => ScanValue j (value i) mm) visits mm in
  nth j (fst mm') 0%Q = running_min (nth j (fst mm) 0%Q) (map value visits)
  /\ nth j (snd mm') 0%Q
     = running_max (nth j (snd mm) 0%Q) (map value visits).
Proof.
  intros Hlen Hj. revert mm Hlen.
  induction visits as [|i visits IH]; intros mm Hlen; simpl; [auto|].
  pose proof (ScanValue_length n j (value i) mm Hlen) as Hlen1.
  destruct (ScanValue_at n j (value i) mm Hlen Hj) as [Ha Hb].
  destruct (IH _ Hlen1) as [H1 H2].
  unfold running_min, running_max in *. simpl.
  rewrite H1, H2, Ha, Hb. auto.
Qed.

(** The whole scan does so for every variable. *)
Lemma scan_all_at n (value : nat -> nat -> Q) (js visits : list nat) mm :
  both_length n mm -> NoDup js -> (forall j, In j js -> (j < n)%nat) ->
  let mm' :=
    fold_left (fun mm j =>
                 fold_left (fun mm i => ScanValue j (value j i) mm) visits mm)
              js mm in
  forall j, In j js ->
    nth j (fst mm') 0%Q
    = running_min (nth j (fst mm) 0%Q) (map (value j) visits)
    /\ nth j (snd mm') 0%Q
       = running_max (nth j (snd mm) 0%Q) (map (value j) visits).
Proof.
  intros Hlen Hnd Hjs. revert mm Hlen.
  induction js as [|a js IH]; intros mm Hlen; simpl; [contradiction|].
  inversion Hnd as [|a' js' Hnotin Hnd']; subst.
  assert (Ha : (a < n)%nat) by (apply Hjs; simpl; auto).
  destruct (scan_variable n a (value a) visits mm Hlen Ha)
    as (Hl1 & _ & _ & _ & Hother1).
  intros j [<-|Hj].
  - destruct (scan_all n value js visits _ Hl1 Hnd'
                (fun j' H => Hjs j' (or_intror H))) as (_ & _ & Hother).
    destruct (Hother a Hnotin) as [-> ->].
    apply (scan_variable_at n); assumption.
  - destruct (IH Hnd' (fun j' H => Hjs j' (or_intror H)) _ Hl1 j Hj)
      as [-> ->].
    assert (Hne : j <> a) by (intros ->; contradiction).
    destruct (Hother1 j Hne) as [-> ->]. auto.
Qed.

Lemma nth_repeat_lt {A : Type} (a d : A) (n k : nat) :
  (k < n)%nat -> nth k (repeat a n) d = a.
Proof.
  revert k. induction n as [|n IH]; intros [|k] Hk; simpl; try lia; auto.
  apply IH. lia.
Qed.

(** The range of axis [j] is the running minimum and maximum of its
    values, from [VTK_LARGE_FLOAT] and [-VTK_LARGE_FLOAT]. *)
Lemma FindRanges_at mode field j :
  (j < Z.to_nat (CountVariables mode field))%nat ->
  let values :=
    AxisValues mode field (GetNumberOfComponents field) (NumRows field) j in
  nth j (fst (FindRanges mode field)) 0%Q
  = running_min VTK_LARGE_FLOAT values
  /\ nth j (snd (FindRanges mode field)) 0%Q
     = running_max (- VTK_LARGE_FLOAT) values.
Proof.
  intros Hj values. subst values. unfold FindRanges, AxisValues.
  set (mm := (repeat _ _, repeat _ _)).
  assert (Hlen : both_length (Z.to_nat (CountVariables mode field)) mm)
    by (split; cbn; apply repeat_length).
  assert (H0 : nth j (fst mm) 0%Q = VTK_LARGE_FLOAT
               /\ nth j (snd mm) 0%Q = (- VTK_LARGE_FLOAT)%Q)
    by (split; cbn; apply nth_repeat_lt; exact Hj).
  destruct H0 as [Hmin Hmax].
  destruct mode; cbn [ScanRanges TupleCount TupleValue CountVariables] in *.
  - destruct (scan_all_at _
                (fun j i => GetComponent field (Z.of_nat i) (Z.of_nat j))
                (upto (GetNumberOfComponents field))
                (upto (NumRows field)) mm Hlen
                (NoDup_upto _) (fun j H => proj1 (in_upto _ j) H) j)
      as [-> ->]; [apply in_upto; exact Hj|].
    rewrite Hmin, Hmax. auto.
  - destruct (scan_all_at _
                (fun j i => GetComponent field (Z.of_nat j) (Z.of_nat i))
                (upto (NumRows field))
                (upto (GetNumberOfComponents field)) mm Hlen
                (NoDup_upto _) (fun j H => proj1 (in_upto _ j) H) j)
      as [-> ->]; [apply in_upto; exact Hj|].
    rewrite Hmin, Hmax. auto.
Qed.

(** The ranges a successful layout stores. *)
Lemma PlaceAxes_ranges input viewport this field :
  GetFieldData input = Some field ->
  ret (PlaceAxes input viewport this) = 1 ->
  0 < CountVariables (IndependentVariables this) field < VTK_LARGE_ID
  /\ N (self (PlaceAxes input viewport this))
     = CountVariables (IndependentVariables this) field
  /\ Mins (self (PlaceAxes input viewport this))
     = Some (fst (FindRanges (IndependentVariables this) field))
  /\ Maxs (self (PlaceAxes input viewport this))
     = Some (snd (FindRanges (IndependentVariables this) field)).
Proof.
  intros Hf Hret. apply PlaceAxes_ret in Hret.
  destruct Hret as (field' & Hf' & Hn).
  assert (field' = field) by congruence. subst field'.
  rewrite (PlaceAxes_success _ _ _ _ Hf Hn). cbn. auto.
Qed.

(** X2: the sentinels show through: if no value read for axis [j] is
    below [VTK_LARGE_FLOAT] (none was read, or all are that large),
    [Mins[j]] is [VTK_LARGE_FLOAT]; if none is above [-VTK_LARGE_FLOAT],
    [Maxs[j]] is [-VTK_LARGE_FLOAT]. *)
Theorem ranges_keep_sentinels input viewport this field j :
  GetFieldData input = Some field ->
  ret (PlaceAxes input viewport this) = 1 ->
  0 <= j < N (self (PlaceAxes input viewport this)) ->
  let values :=
    AxisValues (IndependentVariables this) field
               (GetNumberOfComponents field) (NumRows field) (Z.to_nat j) in
  exists mins maxs,
    Mins (self (PlaceAxes input viewport this)) = Some mins
    /\ Maxs (self (PlaceAxes input viewport this)) = Some maxs
    /\ ((forall v, In v values -> (VTK_LARGE_FLOAT <= v)%Q) ->
        nth (Z.to_nat j) mins 0%Q = VTK_LARGE_FLOAT)
    /\ ((forall v, In v values -> (v <= - VTK_LARGE_FLOAT)%Q) ->
        nth (Z.to_nat j) maxs 0%Q = (- VTK_LARGE_FLOAT)%Q).
Proof.
  intros Hf Hret Hj values.
  destruct (PlaceAxes_ranges _ _ _ _ Hf Hret) as (Hn & HN & Hmi & Hma).
  rewrite HN in Hj. rewrite Hmi, Hma. do 2 eexists.
  split; [reflexivity|]. split; [reflexivity|].
  destruct (FindRanges_at (IndependentVariables this) field (Z.to_nat j))
    as [-> ->]; [lia|]. fold values.
  clearbody values. split; intros Hall.
  - unfold running_min. revert Hall.
    induction values as [|v values IH]; intros Hall; simpl; [reflexivity|].
    destruct (Qltb v VTK_LARGE_FLOAT) eqn:E.
    + apply Qltb_true in E. exfalso. apply (Qlt_irrefl v).
      eapply Qlt_le_trans; [exact E|]. apply Hall. simpl. auto.
    + apply IH. intros w Hw. apply Hall. simpl. auto.
  - unfold running_max. revert Hall.
    induction values as [|v values IH]; intros Hall; simpl; [reflexivity|].
    destruct (Qltb (- VTK_LARGE_FLOAT) v) eqn:E.
    + apply Qltb_true in E. exfalso. apply (Qlt_irrefl v).
      eapply Qle_lt_trans; [|exact E]. apply Hall. simpl. auto.
    + apply IH. intros w Hw. apply Hall. simpl. auto.
Qed.



(* ------------------------------------------------------------------ *)
(** ** The plot inside the box *)


Lemma AxisCount_CountVariables mode field :
  AxisCount mode (GetNumberOfComponents field) (NumRows field)
  = CountVariables mode field.
Proof. destruct mode; reflexivity. Qed.

(* ------------------------------------------------------------------ *)
(** ** Points and cells *)

Lemma map_seq_from {A : Type} (f : nat -> A) (a m : nat) :
  map (fun k => f (a + k)%nat) (seq 0 m) = map f (seq a m).
Proof.
  revert a. induction m as [|m IH]; intros a; [reflexivity|].
  simpl. rewrite Nat.add_0_r. f_equal.
  rewrite <- seq_shift, map_map. rewrite <- IH.
  apply map_ext. intros k. f_equal. lia.
Qed.

Lemma GridCells_ids (announced : Z) (axes tuples first : nat) :
  concat (map ptIds
              (map (fun t =>
                      mkCell announced
                        (map (fun k => Z.of_nat (0 + t * axes + k))
                             (seq 0 axes)))
                   (seq first tuples)))
  = map Z.of_nat (seq (first * axes) (tuples * axes)).
Proof.
  revert first. induction tuples as [|n IH]; intros first; [reflexivity|].
  simpl. rewrite IH. rewrite seq_app, map_app. f_equal.
  - rewrite <- (map_seq_from Z.of_nat). reflexivity.
  - do 2 f_equal. lia.
Qed.

Lemma length_GridPoints (point : nat -> nat -> Point) (tuples axes : list nat) :
  length (GridPoints point tuples axes)
  = (length tuples * length axes)%nat.
Proof.
  unfold GridPoints. induction tuples as [|t tuples IH]; [reflexivity|].
  simpl. rewrite length_app, length_map, IH. reflexivity.
Qed.

(** X6: the cells of a successful layout index its points one to one:
    there are [tuples * N] points and [tuples] cells (one per row in
    column mode, one per column in row mode); every cell holds [N] ids
    and is announced with [numColumns] points; and the ids of the cells,
    read in order, are 0, 1, 2, ... up to the number of points. *)
Theorem cells_index_points input viewport this field :
  GetFieldData input = Some field ->
  ret (PlaceAxes input viewport this) = 1 ->
  let placed := self (PlaceAxes input viewport this) in
  let tuples :=
    Z.to_nat (TupleCount (IndependentVariables this)
                         (GetNumberOfComponents field) (NumRows field)) in
  let n := Z.to_nat (N placed) in
  length (Points (PlotData placed)) = (tuples * n)%nat
  /\ length (Lines (PlotData placed)) = tuples
  /\ (forall c, In c (Lines (PlotData placed)) ->
        length (ptIds c) = n /\ npts c = GetNumberOfComponents field)
  /\ concat (map ptIds (Lines (PlotData placed)))
     = map Z.of_nat (seq 0 (tuples * n)).
Proof.
  intros Hf Hret placed tuples n. subst placed tuples n.
  apply PlaceAxes_ret in Hret. destruct Hret as (field' & Hf' & Hn).
  assert (field' = field) by congruence. subst field'.
  rewrite (PlaceAxes_success _ _ _ _ Hf Hn). cbn.
  rewrite PlotLines_grid. cbn [fst snd]. rewrite AxisCount_CountVariables.
  split; [|split; [|split]].
  - rewrite length_GridPoints, !length_upto. reflexivity.
  - unfold GridCells. rewrite length_map, length_seq. reflexivity.
  - intros c Hc. unfold GridCells in Hc. apply in_map_iff in Hc.
    destruct Hc as (t & <- & _). cbn.
    rewrite length_map, length_seq. auto.
  - unfold GridCells. rewrite GridCells_ids. reflexivity.
Qed.

(** X7: when the table is square, or in column mode, every cell is
    announced with the number of points it holds, [N]. *)
Theorem cells_announce_what_they_hold input viewport this field :
  GetFieldData input = Some field ->
  ret (PlaceAxes input viewport this) = 1 ->
  IndependentVariables this = VTK_IV_COLUMN
  \/ GetNumberOfComponents field = NumRows field ->
  let placed := self (PlaceAxes input viewport this) in
  forall c, In c (Lines (PlotData placed)) ->
    npts c = N placed /\ length (ptIds c) = Z.to_nat (N placed).
Proof.
  intros Hf Hret Hsq placed c Hc. subst placed.
  rewrite (PlaceAxes_polylines _ _ _ _ Hf Hret) in Hc.
  destruct (PlaceAxes_ranges _ _ _ _ Hf Hret) as (_ & HN & _).
  rewrite HN in *.
  unfold GridCells in Hc. apply in_map_iff in Hc.
  destruct Hc as (t & <- & _). cbn.
  rewrite length_map, length_seq. split; [|reflexivity].
  destruct Hsq as [->|Hsq]; [reflexivity|].
  destruct (IndependentVariables this); cbn; auto.
Qed.

(** The axes a successful layout stores. *)
Lemma PlaceAxes_axes input viewport this field :
  GetFieldData input = Some field ->
  ret (PlaceAxes input viewport this) = 1 ->
  let placed := self (PlaceAxes input viewport this) in
  let mode := IndependentVariables this in
  Axes placed
  = Some (MakeAxes (Initialize this)
            (fst (FindRanges mode field)) (snd (FindRanges mode field))
            (AxisPositions viewport (N placed))
            (snd (Position viewport)) (snd (Position2 viewport)) (N placed))
  /\ Xs placed = Some (AxisPositions viewport (N placed))
  /\ YMin placed = snd (Position viewport)
  /\ YMax placed = snd (Position2 viewport).
Proof.
  intros Hf Hret placed mode. subst placed mode.
  apply PlaceAxes_ret in Hret. destruct Hret as (field' & Hf' & Hn).
  assert (field' = field) by congruence. subst field'.
  rewrite (PlaceAxes_success _ _ _ _ Hf Hn). cbn. auto.
Qed.

(** X8: every axis is dressed from the arrays: after a successful
    layout, axis [i] has the range [(Mins[i], Maxs[i])], runs from
    [(Xs[i], YMin)] to [(Xs[i], YMax)], does not adjust its labels, and
    takes the actor's number of labels and label format. *)
Theorem axes_follow_arrays input viewport this i :
  ret (PlaceAxes input viewport this) = 1 ->
  let placed := self (PlaceAxes input viewport this) in
  0 <= i < N placed ->
  exists axes mins maxs xs,
    Axes placed = Some axes /\ Mins placed = Some mins
    /\ Maxs placed = Some maxs /\ Xs placed = Some xs
    /\ nth_error axes (Z.to_nat i)
       = Some {| Range := (nth (Z.to_nat i) mins 0%Q,
                           nth (Z.to_nat i) maxs 0%Q);
                 AdjustLabels := false;
                 AxisNumberOfLabels := NumberOfLabels this;
                 AxisLabelFormat := LabelFormat this;
                 Point1 := (nth (Z.to_nat i) xs 0, YMin placed);
                 Point2 := (nth (Z.to_nat i) xs 0, YMax placed) |}.
Proof.
  intros Hret placed Hi. subst placed.
  pose proof Hret as Hret'. apply PlaceAxes_ret in Hret'.
  destruct Hret' as (field & Hf & Hn).
  destruct (PlaceAxes_ranges _ _ _ _ Hf Hret) as (_ & HN & Hmi & Hma).
  destruct (PlaceAxes_axes _ _ _ _ Hf Hret) as (Ha & Hx & Hy0 & Hy1).
  rewrite Ha, Hmi, Hma, Hx, Hy0, Hy1. do 4 eexists.
  do 4 (split; [reflexivity|]).
  unfold MakeAxes. rewrite nth_error_map. unfold upto.
  rewrite nth_error_seq.
  destruct (Nat.ltb_spec (Z.to_nat i)
              (Z.to_nat (N (self (PlaceAxes input viewport this)))));
    [|lia].
  cbn [option_map Nat.add].
  destruct (Initialize_config this) as (_ & _ & -> & -> & _).
  reflexivity.
Qed.

(** X9: a layout touches nothing but the layout: [PlaceAxes], whatever
    it returns, leaves the mode, the input, the title, the number of
    labels, the label format, the title position and the recorded
    corners as they were. *)
Theorem PlaceAxes_keeps_configuration input viewport this :
  let placed := self (PlaceAxes input viewport this) in
  IndependentVariables placed = IndependentVariables this
  /\ Input placed = Input this
  /\ Title placed = Title this
  /\ NumberOfLabels placed = NumberOfLabels this
  /\ LabelFormat placed = LabelFormat this
  /\ TitlePosition placed = TitlePosition this
  /\ LastPosition placed = LastPosition this
  /\ LastPosition2 placed = LastPosition2 this.
Proof.
  unfold PlaceAxes.
  destruct this as [m n i [a|] mi ma xs y0 y1 t tp pd nl lf l1 l2]; cbn.
  all: destruct (GetFieldData input) as [field|]; cbn; [|tauto].
  all: destruct (_ || _); cbn; tauto.
Qed.

(** X10: an input without field data fails quietly: [PlaceAxes] returns
    0 and reports nothing; on an actor whose arrays are consistent it
    leaves no axes, and the box and the plot of the previous layout stay
    as they were. *)
Theorem PlaceAxes_without_field input viewport this :
  Consistent this ->
  GetFieldData input = None ->
  let placed := PlaceAxes input viewport this in
  ret placed = 0
  /\ log placed = []
  /\ Cleared (self placed)
  /\ YMin (self placed) = YMin this
  /\ YMax (self placed) = YMax this
  /\ PlotData (self placed) = PlotData this.
Proof.
  intros Hc Hf placed. subst placed.
  rewrite PlaceAxes_no_field by exact Hf. cbn.
  destruct (Initialize_config this) as (_ & _ & _ & _ & H1 & H2 & H3 & _).
  repeat split; auto; apply Initialize_Cleared; exact Hc.
Qed.

Lemma PlaceAxes_keeps_title input viewport this :
  Title (self (PlaceAxes input viewport this)) = Title this.
Proof.
  unfold PlaceAxes.
  destruct this as [m n i [a|] mi ma xs y0 y1 t tp pd nl lf l1 l2]; cbn.
  all: destruct (GetFieldData input) as [field|]; cbn; [|reflexivity].
  all: destruct (_ || _); reflexivity.
Qed.

Lemma PlaceAxes_keeps_corners input viewport this :
  LastPosition (self (PlaceAxes input viewport this)) = LastPosition this
  /\ LastPosition2 (self (PlaceAxes input viewport this))
     = LastPosition2 this.
Proof.
  unfold PlaceAxes.
  destruct this as [m n i [a|] mi ma xs y0 y1 t tp pd nl lf l1 l2]; cbn.
  all: destruct (GetFieldData input) as [field|]; cbn; [|auto].
  all: destruct (_ || _); auto.
Qed.

(* ------------------------------------------------------------------ *)
(** ** Rendering and releasing *)

Lemma flat_map_agree {A B : Type} (f g : A -> list B) (l : list A) :
  (forall x, In x l -> f x = g x) -> flat_map f l = flat_map g l.
Proof.
  induction l as [|x l IH]; intros H; [reflexivity|].
  simpl. rewrite (H x) by (simpl; auto). rewrite IH; [reflexivity|].
  intros y Hy. apply H. simpl. auto.
Qed.

Lemma flat_map_nth_error {A B : Type} (f : A -> B) (a : list A) (first : nat) :
  flat_map (fun i => match nth_error a (i - first) with
                     | Some x => [f x]
                     | None => []
                     end)
           (seq first (length a))
  = map f a.
Proof.
  revert first. induction a as [|x a IH]; intros first; [reflexivity|].
  simpl. rewrite Nat.sub_diag. simpl. f_equal.
  rewrite <- (IH (S first)). apply flat_map_agree.
  intros i Hi. apply in_seq in Hi.
  replace (i - first)%nat with (S (i - S first)) by lia. reflexivity.
Qed.

(** The axes the loops over [i < N] reach, on a consistent actor: all of
    them, in order. *)
Lemma axes_reached this :
  Consistent this ->
  flat_map (fun i =>
              match Axes this with
              | Some a => match nth_error a i with
                          | Some axis => [AxisActor axis]
                          | None => []
                          end
              | None => []
              end)
           (upto (N this))
  = map AxisActor (match Axes this with Some a => a | None => [] end)
  /\ length (match Axes this with Some a => a | None => [] end)
     = Z.to_nat (N this).
Proof.
  intros [(HN & Ha & _) | (HN & a & mi & ma & xs & Ha & _ & _ & _ & Hl & _)];
    rewrite Ha.
  - rewrite HN. split; reflexivity.
  - split; [|exact Hl]. unfold upto. rewrite <- Hl.
    rewrite <- (flat_map_nth_error AxisActor a 0).
    apply flat_map_ext. intros i. rewrite Nat.sub_0_r. reflexivity.
Qed.

Lemma fold_left_sum (f : RenderTarget -> Z) (calls : list RenderTarget)
    (start : Z) :
  fold_left (fun renderedSomething t => renderedSomething + f t) calls start
  = start + fold_right Z.add 0 (map f calls).
Proof.
  revert start. induction calls as [|c calls IH]; intros start; simpl;
    [lia|]. rewrite IH. lia.
Qed.

(** What a render pass over the parts does, on a consistent actor. *)
Lemma RenderParts_calls pass this :
  Consistent this ->
  let calls :=
    TitleCall this ++ [PlotActor (PlotData this)]
    ++ map AxisActor (match Axes this with Some a => a | None => [] end) in
  RenderParts pass this
  = mkResult (fold_right Z.add 0 (map (Rendered pass) calls))
             (map (Render pass) calls) this.
Proof.
  intros Hc calls. subst calls. unfold RenderParts.
  destruct (axes_reached this Hc) as [-> _].
  fold (TitleCall this). rewrite fold_left_sum. reflexivity.
Qed.

(** X11: with an input and [N > 0], [RenderOverlay] on a consistent
    actor asks the title (if there is one), then the plot, then each of
    the [N] axes in order to render, reports no error, returns the sum
    of what they return, and leaves the actor as it was. *)
Theorem RenderOverlay_draws_all_parts this :
  Consistent this ->
  Input this <> None ->
  0 < N this ->
  exists axes,
    Axes this = Some axes
    /\ length axes = Z.to_nat (N this)
    /\ let calls :=
         TitleCall this ++ [PlotActor (PlotData this)] ++ map AxisActor axes in
       RenderOverlay this
       = mkResult (fold_right Z.add 0 (map (Rendered Overlay) calls))
                  (map (Render Overlay) calls) this.
Proof.
  intros Hc Hi Hn.
  pose proof (RenderParts_calls Overlay this Hc) as Hp.
  destruct (axes_reached this Hc) as [_ Hl].
  destruct Hc as [(HN & _) | (_ & a & mi & ma & xs & Ha & _)]; [lia|].
  rewrite Ha in *. exists a. split; [reflexivity|]. split; [exact Hl|].
  cbv zeta in *. unfold RenderOverlay.
  destruct (Input this); [|congruence].
  destruct (Z.leb_spec (N this) 0); [lia|]. exact Hp.
Qed.

(** X12: [ReleaseGraphicsResources] on a consistent actor releases the
    title actor and then every axis, in order: [N] axes after a
    successful layout, none on an actor without axes.  The plot actor is
    never asked to release anything. *)
Theorem ReleaseGraphicsResources_title_and_axes this :
  Consistent this ->
  ReleaseGraphicsResources this
  = TitleActor
    :: map AxisActor (match Axes this with Some a => a | None => [] end)
  /\ length (ReleaseGraphicsResources this) = S (Z.to_nat (N this))
  /\ forall data, ~ In (PlotActor data) (ReleaseGraphicsResources this).
Proof.
  intros Hc. unfold ReleaseGraphicsResources.
  destruct (axes_reached this Hc) as [-> Hl].
  split; [reflexivity|]. split.
  - simpl. rewrite length_map, Hl. reflexivity.
  - intros data [H|H]; [discriminate|].
    apply in_map_iff in H. destruct H as (axis & H & _). discriminate.
Qed.

Lemma same_position_true p q : same_position p q = true <-> p = q.
Proof.
  destruct p as [a b], q as [c d]. unfold same_position. cbn.
  rewrite andb_true_iff, !Z.eqb_eq. split.
  - intros [-> ->]. reflexivity.
  - intros [= -> ->]. auto.
Qed.

(** The actor [RenderOpaqueGeometry] rebuilds or renders: the corners
    are recorded when the viewport is newer and they moved. *)
Lemma recorded_corners viewport viewportNewer this :
  let moved :=
    viewportNewer
    && negb (same_position (Position viewport) (LastPosition this)
             && same_position (Position2 viewport) (LastPosition2 this)) in
  let that :=
    if moved
    then set_LastPositions this (Position viewport) (Position2 viewport)
    else this in
  same_configuration this that
  /\ Input that = Input this /\ Title that = Title this
  /\ Layout that = Layout this
  /\ (viewportNewer = true ->
      LastPosition that = Position viewport
      /\ LastPosition2 that = Position2 viewport).
Proof.
  cbv zeta.
  destruct (same_position (Position viewport) (LastPosition this)) eqn:E1;
    destruct (same_position (Position2 viewport) (LastPosition2 this)) eqn:E2;
    destruct viewportNewer; cbn [andb negb].
  all: split; [unfold same_configuration; auto|].
  all: do 3 (split; [reflexivity|]).
  all: intros H; try discriminate; cbn; auto.
  apply same_position_true in E1. apply same_position_true in E2. auto.
Qed.

Lemma Rebuild_failed input viewport this :
  ret (PlaceAxes input viewport this) = 0 ->
  Rebuild input viewport this
  = mkResult 0 (log (PlaceAxes input viewport this))
             (self (PlaceAxes input viewport this)).
Proof. intros H. unfold Rebuild. rewrite H. reflexivity. Qed.

Lemma PlaceAxes_failed input viewport this :
  GetFieldData input = None
  \/ (exists field,
        GetFieldData input = Some field
        /\ (CountVariables (IndependentVariables this) field <= 0
            \/ VTK_LARGE_ID
               <= CountVariables (IndependentVariables this) field)) ->
  ret (PlaceAxes input viewport this) = 0
  /\ N (self (PlaceAxes input viewport this)) = 0
  /\ Axes (self (PlaceAxes input viewport this)) = None
  /\ forall e, In e (log (PlaceAxes input viewport this)) ->
       exists msg, e = ErrorMacro msg.
Proof.
  destruct (Initialize_N this) as [HN Ha].
  intros [Hf | (field & Hf & Hn)].
  - rewrite PlaceAxes_no_field by exact Hf. cbn.
    repeat split; auto. contradiction.
  - rewrite (PlaceAxes_failure _ _ _ _ Hf) by exact Hn. cbn.
    repeat split; auto. intros e [<-|[]]. eauto.
Qed.

(** X13: when the rebuild fails (the input has no field data, or the
    field yields no variables), [RenderOpaqueGeometry] returns 0 and asks
    no sub-actor to render; it leaves [N] at 0 and no axes, so that the
    [RenderOverlay] that follows renders nothing either. *)
Theorem RenderOpaqueGeometry_failed_rebuild viewport viewportNewer this input :
  Input this = Some input ->
  GetFieldData input = None
  \/ (exists field,
        GetFieldData input = Some field
        /\ (CountVariables (IndependentVariables this) field <= 0
            \/ VTK_LARGE_ID
               <= CountVariables (IndependentVariables this) field)) ->
  let rendered := RenderOpaqueGeometry viewport viewportNewer true this in
  ret rendered = 0
  /\ rendered_targets (log rendered) = []
  /\ N (self rendered) = 0
  /\ Axes (self rendered) = None
  /\ RenderOverlay (self rendered)
     = mkResult 0 [ErrorMacro "Nothing to plot!"%string] (self rendered).
Proof.
  intros Hi Hfail rendered. subst rendered.
  unfold RenderOpaqueGeometry. rewrite Hi.
  destruct (recorded_corners viewport viewportNewer this)
    as ((Hm & _) & Hin & _).
  cbv zeta in *.
  match goal with
  | |- context [Rebuild input viewport ?x] => set (that := x) in *
  end.
  rewrite orb_true_r.
  assert (Hfail' :
    GetFieldData input = None
    \/ (exists field,
          GetFieldData input = Some field
          /\ (CountVariables (IndependentVariables that) field <= 0
              \/ VTK_LARGE_ID
                 <= CountVariables (IndependentVariables that) field)))
    by (rewrite Hm; exact Hfail).
  destruct (PlaceAxes_failed input viewport that Hfail')
    as (Hret & HN & Ha & Hlog).
  rewrite (Rebuild_failed _ _ _ Hret). cbn [ret log self].
  split; [reflexivity|]. split; [|split; [exact HN|split; [exact Ha|]]].
  - revert Hlog. generalize (log (PlaceAxes input viewport that)).
    intros l. induction l as [|e l IH]; intros Hl; [reflexivity|].
    destruct (Hl e (or_introl eq_refl)) as (msg & ->). simpl.
    apply IH. intros e' He'. apply Hl. simpl. auto.
  - unfold RenderOverlay.
    destruct (Input (self (PlaceAxes input viewport that))); [|reflexivity].
    rewrite HN. reflexivity.
Qed.

Lemma rendered_targets_Render pass calls :
  rendered_targets (map (Render pass) calls) = calls.
Proof.
  unfold rendered_targets. induction calls as [|c calls IH]; [reflexivity|].
  simpl. rewrite IH. reflexivity.
Qed.

Lemma Consistent_set_TitlePosition this p :
  Consistent this -> Consistent (set_TitlePosition this p).
Proof. apply Consistent_same_arrays; reflexivity. Qed.

(** X14: when the rebuild succeeds, [RenderOpaqueGeometry] on a
    consistent actor renders the title (if there is one), the plot and
    the [N] axes of the new layout, and the [RenderOverlay] that follows
    renders the same parts in the same order. *)
Theorem RenderOpaqueGeometry_then_overlay viewport viewportNewer this
    input field :
  Consistent this ->
  Input this = Some input ->
  GetFieldData input = Some field ->
  0 < CountVariables (IndependentVariables this) field < VTK_LARGE_ID ->
  let rendered := RenderOpaqueGeometry viewport viewportNewer true this in
  exists axes,
    Axes (self rendered) = Some axes
    /\ length axes
       = Z.to_nat (CountVariables (IndependentVariables this) field)
    /\ rendered_targets (log rendered)
       = TitleCall this ++ [PlotActor (PlotData (self rendered))]
         ++ map AxisActor axes
    /\ rendered_targets (log (RenderOverlay (self rendered)))
       = rendered_targets (log rendered).
Proof.
  intros Hc Hi Hf Hn rendered. subst rendered.
  unfold RenderOpaqueGeometry. rewrite Hi.
  destruct (recorded_corners viewport viewportNewer this)
    as ((Hm & _) & Hin & Hti & Hl & _).
  cbv zeta in *.
  match goal with
  | |- context [Rebuild input viewport ?x] => set (that := x) in *
  end.
  rewrite orb_true_r.
  assert (Hct : Consistent that).
  { apply Layout_members in Hl.
    destruct Hl as (L1 & L2 & L3 & L4 & L5 & _).
    revert Hc. apply Consistent_same_arrays; assumption. }
  rewrite <- Hm in Hn.
  assert (Hret : ret (PlaceAxes input viewport that) = 1)
    by (apply PlaceAxes_ret; eauto).
  destruct (PlaceAxes_outcome input viewport that Hct) as [[E _]|[_ Hal]];
    [congruence|].
  destruct (PlaceAxes_ranges _ _ _ _ Hf Hret) as (_ & HN & _).
  destruct (PlaceAxes_keeps input viewport that) as (_ & Hin' & _).
  pose proof (PlaceAxes_keeps_title input viewport that) as Hti'.
  unfold Rebuild. rewrite Hret. cbn [Z.eqb Pos.eqb].
  set (placed := self (PlaceAxes input viewport that)) in *.
  set (built := set_TitlePosition placed (TitleAt viewport placed)).
  assert (Hcb : Consistent built)
    by (apply Consistent_set_TitlePosition; right; exact Hal).
  rewrite (RenderParts_calls OpaqueGeometry built Hcb). cbn [log self].
  destruct Hal as (Hpos & a & mi & ma & xs & Ha & _ & _ & _ & Hla & _).
  exists a. split; [exact Ha|]. split; [rewrite Hla, HN, Hm; reflexivity|].
  rewrite rendered_targets_Render.
  assert (Htc : TitleCall built = TitleCall this)
    by (unfold TitleCall; cbn; rewrite Hti', Hti; reflexivity).
  change (Axes built) with (Axes placed). rewrite Ha, Htc.
  split; [reflexivity|].
  unfold RenderOverlay. change (Input built) with (Input placed).
  rewrite Hin', Hin, Hi. change (N built) with (N placed).
  destruct (Z.leb_spec (N placed) 0); [lia|].
  rewrite (RenderParts_calls Overlay built Hcb). cbn [log].
  rewrite rendered_targets_Render.
  change (Axes built) with (Axes placed). rewrite Ha, Htc. reflexivity.
Qed.

Lemma Rebuild_keeps_corners input viewport this :
  LastPosition (self (Rebuild input viewport this)) = LastPosition this
  /\ LastPosition2 (self (Rebuild input viewport this)) = LastPosition2 this.
Proof.
  destruct (PlaceAxes_keeps_corners input viewport this) as [H1 H2].
  unfold Rebuild. destruct (ret _ =? 0); cbn; auto.
Qed.

(** X15: the corners are remembered: after a render that found the
    viewport newer than the last build, a later render of the same
    viewport with nothing stale does not rebuild, even when the
    viewport's time stamp has moved on again: it renders the parts and
    leaves the actor exactly as it was. *)
Theorem unmoved_viewport_not_rebuilt viewport stale again this :
  Input this <> None ->
  let first := RenderOpaqueGeometry viewport true stale this in
  RenderOpaqueGeometry viewport again false (self first)
  = RenderParts OpaqueGeometry (self first).
Proof.
  intros Hi first.
  assert (H : Input (self first) = Input this
              /\ LastPosition (self first) = Position viewport
              /\ LastPosition2 (self first) = Position2 viewport).
  { subst first. unfold RenderOpaqueGeometry.
    destruct (Input this) as [input|] eqn:E; [|congruence].
    destruct (recorded_corners viewport true this)
      as (_ & Hin & _ & _ & Hc).
    destruct (Hc eq_refl) as [Hc1 Hc2]. cbv zeta in *.
    match goal with
    | |- context [Rebuild input viewport ?x] => set (that := x) in *
    end.
    destruct (_ || stale).
    - destruct (Rebuild_keeps input viewport that) as (_ & Hin').
      destruct (Rebuild_keeps_corners input viewport that) as [K1 K2].
      rewrite Hin', K1, K2, Hin. auto.
    - cbn [self RenderParts]. rewrite Hin. auto. }
  destruct H as (Hin & H1 & H2).
  unfold RenderOpaqueGeometry at 1. rewrite Hin.
  destruct (Input this) as [input|]; [|congruence].
  rewrite H1, H2.
  assert (R : forall p, same_position p p = true)
    by (intros p; apply same_position_true; reflexivity).
  rewrite !R. cbn. rewrite andb_false_r. reflexivity.
Qed.



(* ------------------------------------------------------------------ *)
(** ** The text attributes *)

Lemma nth_error_store_same {A : Type} (j : nat) (v : A) (a : list A) :
  (j < length a)%nat -> nth_error (store j v a) j = Some v.
Proof.
  revert j. induction a as [|h t IH]; intros [|k] Hj; simpl in *;
    try lia; auto.
  apply IH. lia.
Qed.

Lemma nth_error_store_other {A : Type} (j k : nat) (v : A) (a : list A) :
  j <> k -> nth_error (store j v a) k = nth_error a k.
Proof.
  revert j k. induction a as [|h t IH]; intros [|j] [|k] Hjk; simpl;
    try reflexivity; try congruence.
  apply IH. congruence.
Qed.

(** X18: set then get: when the label and the title pointer each point
    to an object (one object or two), and the property's getter returns
    what its setter was given, then setting an attribute through the
    actor succeeds, the actor's getter returns the value, the label
    property holds it as well, the pointers are unchanged, and no other
    object is touched. *)
Theorem text_attribute_set_then_get {P : Type} (set : Z -> P -> P)
    (get : P -> Z) (val : Z) (this : TextProperties P) (label title : nat) :
  (forall v p, get (set v p) = v) ->
  LabelTextProperty this = Some label ->
  TitleTextProperty this = Some title ->
  (label < length (Heap this))%nat ->
  (title < length (Heap this))%nat ->
  exists that,
    SetTextAttribute set val this = Some that
    /\ GetTextAttribute get that = Some val
    /\ GetThrough get (LabelTextProperty that) (Heap that) = Some val
    /\ LabelTextProperty that = Some label
    /\ TitleTextProperty that = Some title
    /\ forall other, other <> label -> other <> title ->
         nth_error (Heap that) other = nth_error (Heap this) other.
Proof.
  intros Hgs Hl Ht Hll Hlt.
  unfold SetTextAttribute, GetTextAttribute, SetThrough, GetThrough.
  rewrite Hl, Ht.
  destruct (nth_error (Heap this) label) as [lobj|] eqn:El;
    [|apply nth_error_None in El; lia].
  set (heap1 := store label (set val lobj) (Heap this)).
  assert (Hlen1 : length heap1 = length (Heap this))
    by apply length_store.
  destruct (nth_error heap1 title) as [tobj|] eqn:Et;
    [|apply nth_error_None in Et; lia].
  eexists. split; [reflexivity|]. cbn.
  rewrite nth_error_store_same by lia. cbn. rewrite Hgs.
  split; [reflexivity|]. split; [|split; [reflexivity|split; [reflexivity|]]].
  - destruct (Nat.eq_dec title label) as [->|Hne].
    + rewrite nth_error_store_same by lia. cbn. rewrite Hgs. reflexivity.
    + rewrite nth_error_store_other by exact Hne. subst heap1.
      rewrite nth_error_store_same by lia. cbn. rewrite Hgs. reflexivity.
  - intros other H1 H2. rewrite nth_error_store_other by congruence.
    subst heap1. apply nth_error_store_other. congruence.
Qed.

End Actor.

(* ------------------------------------------------------------------ *)
(** ** The samples *)

(** C1: the sample table has a constant middle column; in the box
    (100,100)-(200,300) its three vertices, points 1, 4 and 7, are at
    y = 100, half the height of the box, and not at the middle of the
    box, y = 200. *)
Theorem constant_column_at_half_height :
  let placed :=
    PlaceAxes sample_large_id sample_large_float
      (mkDataObject (Some sample_table)) sample_viewport
      (sample_actor VTK_IV_COLUMN sample_table) in
  ret placed = 1
  /\ Mins (self placed) = Some [0; 5; -1]%Q
  /\ Maxs (self placed) = Some [10; 5; 1]%Q
  /\ YMin (self placed) = 100
  /\ YMax (self placed) = 300
  /\ map (fun id => nth_error (Points (PlotData (self placed))) id)
         [1; 4; 7]%nat
     = [Some (133, 200 # 2, 0); Some (133, 200 # 2, 0);
        Some (133, 200 # 2, 0)]%Q
  /\ (200 # 2 == 100)%Q
  /\ ~ (200 # 2 == (100 + 300) / 2)%Q.
Proof.
  cbv zeta. repeat split; try (vm_compute; reflexivity).
  intros H. vm_compute in H. discriminate.
Qed.

(** C2: in row mode a table of one column and two rows has [N = 2]
    axes; its one cell receives two point ids, and is announced with one
    point, the number of columns. *)
Theorem row_mode_cell_announced_with_column_count :
  let placed :=
    PlaceAxes sample_large_id sample_large_float
      (mkDataObject (Some one_column_table)) sample_viewport
      (sample_actor VTK_IV_ROW one_column_table) in
  ret placed = 1
  /\ N (self placed) = 2
  /\ Lines (PlotData (self placed)) = [mkCell 1 [0; 1]].
Proof.
  cbv zeta. repeat split; vm_compute; reflexivity.
Qed.

(* ------------------------------------------------------------------ *)
(** ** The theorems at the samples *)

(** The sample actor after a layout is reachable. *)
Lemma layout_members_consistent_witness :
  let this :=
    self (PlaceAxes sample_large_id sample_large_float
            (mkDataObject (Some sample_table)) sample_viewport
            (sample_actor VTK_IV_COLUMN sample_table)) in
  Consistent this
  /\ Cleared (Initialize this)
  /\ forall input viewport,
       let placed :=
         PlaceAxes sample_large_id sample_large_float input viewport this in
       placed
       = PlaceAxes sample_large_id sample_large_float input viewport
                   (Initialize this)
       /\ (ret placed = 0 -> Cleared (self placed))
       /\ (ret placed = 1 -> Allocated (self placed)).
Proof.
  apply (layout_members_consistent sample_large_id sample_large_float
                                   (fun _ _ => 1)).
  apply reach_PlaceAxes, reach_Configure, reach_New.
Defined.

(** A table without columns: no data. *)
Lemma PlaceAxes_no_data_witness :
  let this := sample_actor VTK_IV_COLUMN (TableField []) in
  let placed :=
    PlaceAxes sample_large_id sample_large_float
      (mkDataObject (Some (TableField []))) sample_viewport this in
  ret placed = 0
  /\ Cleared (self placed)
  /\ PlotData (self placed) = PlotData this.
Proof.
  apply (PlaceAxes_no_data sample_large_id sample_large_float
           (mkDataObject (Some (TableField []))) sample_viewport
           (sample_actor VTK_IV_COLUMN (TableField [])) (TableField [])).
  - left. repeat split; reflexivity.
  - reflexivity.
  - left. simpl. lia.
Defined.

(** A new actor has no input. *)
Lemma RenderOverlay_nothing_to_plot_witness :
  RenderOverlay (fun _ _ => 1) (New 0 0 (0, 0)%Q)
  = mkResult 0 [ErrorMacro "Nothing to plot!"%string] (New 0 0 (0, 0)%Q).
Proof.
  apply (RenderOverlay_nothing_to_plot (fun _ _ => 1) (New 0 0 (0, 0)%Q)).
  left. reflexivity.
Defined.

(** Columns of two, three and two rows. *)
Lemma NumRows_least_tuple_count_witness :
  In (NumRows sample_large_id ragged_table) (NumberOfTuples ragged_table)
  /\ (forall t, In t (NumberOfTuples ragged_table) ->
       NumRows sample_large_id ragged_table <= t)
  /\ forall input viewport this,
       GetFieldData input = Some ragged_table ->
       IndependentVariables this = VTK_IV_ROW ->
       0 < NumRows sample_large_id ragged_table < sample_large_id ->
       ret (PlaceAxes sample_large_id sample_large_float input viewport this)
       = 1
       /\ N (self (PlaceAxes sample_large_id sample_large_float
                             input viewport this))
          = NumRows sample_large_id ragged_table.
Proof.
  apply (NumRows_least_tuple_count sample_large_id sample_large_float
                                   ragged_table).
  - discriminate.
  - intros t Ht. simpl in Ht. unfold sample_large_id. lia.
Defined.

(* ------------------------------------------------------------------ *)
(** ** The further properties at the samples *)

Ltac in_range :=
  vm_compute; split; [intros X; discriminate X | reflexivity].

(** A table of three columns and no rows: no value is read. *)
Lemma ranges_keep_sentinels_witness :
  let placed :=
    self (PlaceAxes sample_large_id sample_large_float
                    (mkDataObject (Some no_rows_table)) sample_viewport
                    (sample_actor VTK_IV_COLUMN no_rows_table)) in
  let values :=
    AxisValues VTK_IV_COLUMN no_rows_table
               (GetNumberOfComponents no_rows_table)
               (NumRows sample_large_id no_rows_table) (Z.to_nat 1) in
  exists mins maxs,
    Mins placed = Some mins
    /\ Maxs placed = Some maxs
    /\ ((forall v, In v values -> (sample_large_float <= v)%Q) ->
        nth (Z.to_nat 1) mins 0%Q = sample_large_float)
    /\ ((forall v, In v values -> (v <= - sample_large_float)%Q) ->
        nth (Z.to_nat 1) maxs 0%Q = (- sample_large_float)%Q).
Proof.
  apply (ranges_keep_sentinels sample_large_id sample_large_float
           (mkDataObject (Some no_rows_table)) sample_viewport
           (sample_actor VTK_IV_COLUMN no_rows_table) no_rows_table 1).
  - reflexivity.
  - vm_compute. reflexivity.
  - in_range.
Defined.


(** The sample table in row mode: three rows, three columns. *)
Lemma cells_index_points_witness :
  let placed :=
    self (PlaceAxes sample_large_id sample_large_float sample_input
                    sample_viewport (sample_actor VTK_IV_ROW sample_table)) in
  let tuples :=
    Z.to_nat (TupleCount VTK_IV_ROW (GetNumberOfComponents sample_table)
                         (NumRows sample_large_id sample_table)) in
  let n := Z.to_nat (N placed) in
  length (Points (PlotData placed)) = (tuples * n)%nat
  /\ length (Lines (PlotData placed)) = tuples
  /\ (forall c, In c (Lines (PlotData placed)) ->
        length (ptIds c) = n /\ npts c = GetNumberOfComponents sample_table)
  /\ concat (map ptIds (Lines (PlotData placed)))
     = map Z.of_nat (seq 0 (tuples * n)).
Proof.
  apply (cells_index_points sample_large_id sample_large_float sample_input
           sample_viewport (sample_actor VTK_IV_ROW sample_table)
           sample_table).
  - reflexivity.
  - vm_compute. reflexivity.
Defined.

(** The sample table is square. *)
Lemma cells_announce_what_they_hold_witness :
  let placed :=
    self (PlaceAxes sample_large_id sample_large_float sample_input
                    sample_viewport (sample_actor VTK_IV_ROW sample_table)) in
  Forall (fun c => npts c = N placed
                   /\ length (ptIds c) = Z.to_nat (N placed))
         (Lines (PlotData placed)).
Proof.
  apply Forall_forall.
  apply (cells_announce_what_they_hold sample_large_id sample_large_float
           sample_input sample_viewport
           (sample_actor VTK_IV_ROW sample_table) sample_table).
  - reflexivity.
  - vm_compute. reflexivity.
  - right. vm_compute. reflexivity.
Defined.

(** The second axis of the sample table. *)
Lemma axes_follow_arrays_witness :
  let this := sample_actor VTK_IV_COLUMN sample_table in
  let placed :=
    self (PlaceAxes sample_large_id sample_large_float sample_input
                    sample_viewport this) in
  exists axes mins maxs xs,
    Axes placed = Some axes /\ Mins placed = Some mins
    /\ Maxs placed = Some maxs /\ Xs placed = Some xs
    /\ nth_error axes (Z.to_nat 1)
       = Some {| Range := (nth (Z.to_nat 1) mins 0%Q,
                           nth (Z.to_nat 1) maxs 0%Q);
                 AdjustLabels := false;
                 AxisNumberOfLabels := NumberOfLabels this;
                 AxisLabelFormat := LabelFormat this;
                 Point1 := (nth (Z.to_nat 1) xs 0, YMin placed);
                 Point2 := (nth (Z.to_nat 1) xs 0, YMax placed) |}.
Proof.
  apply (axes_follow_arrays sample_large_id sample_large_float sample_input
           sample_viewport (sample_actor VTK_IV_COLUMN sample_table) 1).
  - vm_compute. reflexivity.
  - in_range.
Defined.

(** An input without field data, after a layout of the sample table. *)
Lemma PlaceAxes_without_field_witness :
  let this :=
    self (PlaceAxes sample_large_id sample_large_float sample_input
                    sample_viewport
                    (sample_actor VTK_IV_COLUMN sample_table)) in
  let placed :=
    PlaceAxes sample_large_id sample_large_float (mkDataObject None)
              sample_viewport this in
  ret placed = 0
  /\ log placed = []
  /\ Cleared (self placed)
  /\ YMin (self placed) = YMin this
  /\ YMax (self placed) = YMax this
  /\ PlotData (self placed) = PlotData this.
Proof.
  apply (PlaceAxes_without_field sample_large_id sample_large_float
           (mkDataObject None) sample_viewport).
  - apply PlaceAxes_Consistent. left. repeat split; reflexivity.
  - reflexivity.
Defined.

(** The sample actor after a layout. *)
Lemma RenderOverlay_draws_all_parts_witness :
  let this :=
    self (PlaceAxes sample_large_id sample_large_float sample_input
                    sample_viewport
                    (sample_actor VTK_IV_COLUMN sample_table)) in
  exists axes,
    Axes this = Some axes
    /\ length axes = Z.to_nat (N this)
    /\ let calls :=
         TitleCall this ++ [PlotActor (PlotData this)] ++ map AxisActor axes in
       RenderOverlay sample_rendered this
       = mkResult (fold_right Z.add 0 (map (sample_rendered Overlay) calls))
                  (map (Render Overlay) calls) this.
Proof.
  apply (RenderOverlay_draws_all_parts sample_rendered).
  - apply PlaceAxes_Consistent. left. repeat split; reflexivity.
  - discriminate.
  - vm_compute. reflexivity.
Defined.

(** A new actor has no axes to release. *)
Lemma ReleaseGraphicsResources_title_and_axes_witness :
  let this := New 0 0 (0, 0)%Q in
  ReleaseGraphicsResources this
  = TitleActor
    :: map AxisActor (match Axes this with Some a => a | None => [] end)
  /\ length (ReleaseGraphicsResources this) = S (Z.to_nat (N this))
  /\ forall data, ~ In (PlotActor data) (ReleaseGraphicsResources this).
Proof.
  apply (ReleaseGraphicsResources_title_and_axes (New 0 0 (0, 0)%Q)).
  left. repeat split; reflexivity.
Defined.

(** An actor whose input has no field data. *)
Lemma RenderOpaqueGeometry_failed_rebuild_witness :
  let this :=
    Configure VTK_IV_COLUMN (Some (mkDataObject None)) None 2 ""%string
              (New 0 0 (0, 0)%Q) in
  let rendered :=
    RenderOpaqueGeometry sample_large_id sample_large_float sample_rendered
                         sample_viewport true true this in
  ret rendered = 0
  /\ rendered_targets (log rendered) = []
  /\ N (self rendered) = 0
  /\ Axes (self rendered) = None
  /\ RenderOverlay sample_rendered (self rendered)
     = mkResult 0 [ErrorMacro "Nothing to plot!"%string] (self rendered).
Proof.
  apply (RenderOpaqueGeometry_failed_rebuild sample_large_id
           sample_large_float sample_rendered sample_viewport true
           (Configure VTK_IV_COLUMN (Some (mkDataObject None)) None 2
                      ""%string (New 0 0 (0, 0)%Q))
           (mkDataObject None)).
  - reflexivity.
  - left. reflexivity.
Defined.

(** The sample actor, rendered for the first time. *)
Lemma RenderOpaqueGeometry_then_overlay_witness :
  let this := sample_actor VTK_IV_COLUMN sample_table in
  let rendered :=
    RenderOpaqueGeometry sample_large_id sample_large_float sample_rendered
                         sample_viewport true true this in
  exists axes,
    Axes (self rendered) = Some axes
    /\ length axes
       = Z.to_nat (CountVariables sample_large_id
                                  (IndependentVariables this) sample_table)
    /\ rendered_targets (log rendered)
       = TitleCall this ++ [PlotActor (PlotData (self rendered))]
         ++ map AxisActor axes
    /\ rendered_targets (log (RenderOverlay sample_rendered (self rendered)))
       = rendered_targets (log rendered).
Proof.
  apply (RenderOpaqueGeometry_then_overlay sample_large_id sample_large_float
           sample_rendered sample_viewport true
           (sample_actor VTK_IV_COLUMN sample_table) sample_input
           sample_table).
  - left. repeat split; reflexivity.
  - reflexivity.
  - reflexivity.
  - vm_compute. split; reflexivity.
Defined.

(** The sample actor, rendered a second time in the same viewport. *)
Lemma unmoved_viewport_not_rebuilt_witness :
  let first :=
    RenderOpaqueGeometry sample_large_id sample_large_float sample_rendered
                         sample_viewport true true
                         (sample_actor VTK_IV_COLUMN sample_table) in
  RenderOpaqueGeometry sample_large_id sample_large_float sample_rendered
                       sample_viewport true false (self first)
  = RenderParts sample_rendered OpaqueGeometry (self first).
Proof.
  apply (unmoved_viewport_not_rebuilt sample_large_id sample_large_float
           sample_rendered sample_viewport true true
           (sample_actor VTK_IV_COLUMN sample_table)).
  discriminate.
Defined.



(** Label and title sharing one text property that holds a number. *)
Lemma text_attribute_set_then_get_witness :
  exists that,
    SetTextAttribute (fun v _ => v) 1 shared_text_properties = Some that
    /\ GetTextAttribute (fun p => p) that = Some 1
    /\ GetThrough (fun p => p) (LabelTextProperty that) (Heap that) = Some 1
    /\ LabelTextProperty that = Some 0%nat
    /\ TitleTextProperty that = Some 0%nat
    /\ forall other, other <> 0%nat -> other <> 0%nat ->
         nth_error (Heap that) other
         = nth_error (Heap shared_text_properties) other.
Proof.
  apply (text_attribute_set_then_get (fun v _ => v) (fun p => p) 1
           shared_text_properties 0 0).
  - reflexivity.
  - reflexivity.
  - reflexivity.
  - simpl. lia.
  - simpl. lia.
Defined.

(* ------------------------------------------------------------------ *)
(** ** Comparisons in single precision *)

Lemma SFcompare_swap (x y : spec_float) :
  SFcompare y x = option_map CompOpp (SFcompare x y).
Proof.
  destruct x as [sx|sx| |sx mx ex], y as [sy|sy| |sy my ey]; simpl;
    try reflexivity;
    try (destruct sx; reflexivity); try (destruct sy; reflexivity);
    try (destruct sx, sy; reflexivity).
  destruct sx, sy; try reflexivity.
  all: rewrite (Z.compare_antisym ex ey).
  all: destruct (ex ?= ey); simpl; try reflexivity.
  all: change (Pos.compare_cont Eq my mx) with (Pos.compare my mx).
  all: change (Pos.compare_cont Eq mx my) with (Pos.compare mx my).
  all: rewrite (Pos.compare_antisym mx my).
  all: destruct (Pos.compare mx my); reflexivity.
Qed.

Lemma ltb_leb (x y : Single.float) :
  Single.ltb x y = true -> Single.leb x y = true.
Proof.
  unfold Single.ltb, Single.leb, SFltb, SFleb.
  destruct (SFcompare x y) as [[]|]; congruence.
Qed.

Lemma ltb_not_nan (x y : Single.float) :
  Single.ltb x y = true -> Single.is_nan x = false /\ Single.is_nan y = false.
Proof.
  unfold Single.ltb, SFltb.
  destruct x, y; simpl; try discriminate; auto.
Qed.

Lemma not_ltb_leb (x y : Single.float) :
  Single.is_nan x = false -> Single.is_nan y = false ->
  Single.ltb x y = false -> Single.leb y x = true.
Proof.
  unfold Single.ltb, Single.leb, SFltb, SFleb. intros Hx Hy.
  rewrite (SFcompare_swap x y).
  destruct (SFcompare x y) as [[]|] eqn:E; simpl; try congruence.
  destruct x, y; simpl in *; discriminate.
Qed.

Lemma leb_refl (x : Single.float) :
  Single.is_nan x = false -> Single.leb x x = true.
Proof.
  unfold Single.leb, SFleb.
  destruct x as [s|s| |s m e]; simpl; try discriminate; intros _;
    try (destruct s; reflexivity).
  rewrite Z.compare_refl.
  change (Pos.compare_cont Eq m m) with (Pos.compare m m).
  rewrite Pos.compare_refl. destruct s; reflexivity.
Qed.

Ltac order_cases :=
  repeat match goal with
         | |- context [Z.compare ?a ?b] =>
             destruct (Z.compare_spec a b); subst
         | |- context [Pos.compare_cont Eq ?a ?b] =>
             change (Pos.compare_cont Eq a b) with (Pos.compare a b);
             destruct (Pos.compare_spec a b); subst
         end.

Lemma leb_trans (x y z : Single.float) :
  Single.leb x y = true -> Single.leb y z = true -> Single.leb x z = true.
Proof.
  unfold Single.leb, SFleb.
  destruct x as [sx|sx| |sx mx ex], y as [sy|sy| |sy my ey],
    z as [sz|sz| |sz mz ez]; simpl; try discriminate; try reflexivity;
    try (destruct sx; simpl; congruence);
    try (destruct sy; simpl; congruence);
    try (destruct sz; simpl; congruence);
    try (destruct sx, sy; simpl; congruence);
    try (destruct sx, sz; simpl; congruence);
    try (destruct sy, sz; simpl; congruence);
    try (destruct sx, sy, sz; simpl; congruence).
  destruct sx, sy, sz; try discriminate; try reflexivity.
  all: order_cases; simpl; try discriminate; try reflexivity; intros _ _;
    try lia.
Qed.

(* ------------------------------------------------------------------ *)
(** ** Integers in single precision *)










(* ------------------------------------------------------------------ *)
(** ** The layout in single precision: ranges *)

Section SinglePrecision.

Variable VTK_LARGE_ID : Z.
Variable VTK_LARGE_FLOAT : Single.float.

Lemma is_nan_opp (x : Single.float) :
  Single.is_nan (Single.opp x) = Single.is_nan x.
Proof. destruct x; reflexivity. Qed.

Lemma leb_not_ltb (x y : Single.float) :
  Single.leb x y = true -> Single.ltb y x = false.
Proof.
  unfold Single.ltb, Single.leb, SFltb, SFleb.
  rewrite (SFcompare_swap x y).
  destruct (SFcompare x y) as [[]|]; simpl; congruence.
Qed.

(** The running minimum from a start that is not a NaN: it is not a
    NaN, it is the start or a value, and it is below every value that
    is not a NaN. *)
Lemma running_min_ordered (start : Single.float) (values : list Single.float) :
  Single.is_nan start = false ->
  Single.is_nan (Single.running_min start values) = false
  /\ Single.leb (Single.running_min start values) start = true
  /\ (forall v, In v values -> Single.is_nan v = false ->
        Single.leb (Single.running_min start values) v = true)
  /\ (Single.running_min start values = start
      \/ In (Single.running_min start values) values).
Proof.
  unfold Single.running_min. revert start.
  induction values as [|v values IH]; intros start Hs; simpl.
  - split; [exact Hs|]. split; [apply leb_refl, Hs|].
    split; [contradiction|auto].
  - destruct (Single.ltb v start) eqn:E.
    + destruct (ltb_not_nan _ _ E) as [Hv _].
      destruct (IH v Hv) as (H0 & H1 & H2 & H3).
      split; [exact H0|].
      split; [eapply leb_trans; [exact H1|apply ltb_leb, E]|].
      split; [intros w [<-|Hw] Hn; auto|].
      destruct H3 as [->|H3]; auto.
    + destruct (IH start Hs) as (H0 & H1 & H2 & H3).
      split; [exact H0|]. split; [exact H1|].
      split; [|destruct H3; auto].
      intros w [<-|Hw] Hn; [|auto].
      eapply leb_trans; [exact H1|]. apply not_ltb_leb; assumption.
Qed.

Lemma running_max_ordered (start : Single.float) (values : list Single.float) :
  Single.is_nan start = false ->
  Single.is_nan (Single.running_max start values) = false
  /\ Single.leb start (Single.running_max start values) = true
  /\ (forall v, In v values -> Single.is_nan v = false ->
        Single.leb v (Single.running_max start values) = true)
  /\ (Single.running_max start values = start
      \/ In (Single.running_max start values) values).
Proof.
  unfold Single.running_max. revert start.
  induction values as [|v values IH]; intros start Hs; simpl.
  - split; [exact Hs|]. split; [apply leb_refl, Hs|].
    split; [contradiction|auto].
  - destruct (Single.ltb start v) eqn:E.
    + destruct (ltb_not_nan _ _ E) as [_ Hv].
      destruct (IH v Hv) as (H0 & H1 & H2 & H3).
      split; [exact H0|].
      split; [eapply leb_trans; [apply ltb_leb, E|exact H1]|].
      split; [intros w [<-|Hw] Hn; auto|].
      destruct H3 as [->|H3]; auto.
    + destruct (IH start Hs) as (H0 & H1 & H2 & H3).
      split; [exact H0|]. split; [exact H1|].
      split; [|destruct H3; auto].
      intros w [<-|Hw] Hn; [|auto].
      eapply leb_trans; [|exact H1]. apply not_ltb_leb; assumption.
Qed.

Lemma ScanValue_both_length n j v mm :
  Single.both_length n mm -> Single.both_length n (Single.ScanValue j v mm).
Proof.
  destruct mm as [mins maxs]. unfold Single.both_length, Single.ScanValue.
  cbn. intros [H1 H2].
  destruct (Single.ltb v _), (Single.ltb _ v); cbn;
    rewrite ?length_store; auto.
Qed.

(** One visit, seen from the variable visited and from the others. *)
Lemma ScanValue_visit n j v mm :
  Single.both_length n mm -> (j < n)%nat ->
  let mm' := Single.ScanValue j v mm in
  nth j (fst mm') S754_nan
  = (if Single.ltb v (nth j (fst mm) S754_nan) then v
     else nth j (fst mm) S754_nan)
  /\ nth j (snd mm') S754_nan
     = (if Single.ltb (nth j (snd mm) S754_nan) v then v
        else nth j (snd mm) S754_nan)
  /\ forall k, k <> j ->
       nth k (fst mm') S754_nan = nth k (fst mm) S754_nan
       /\ nth k (snd mm') S754_nan = nth k (snd mm) S754_nan.
Proof.
  destruct mm as [mins maxs]. unfold Single.both_length, Single.ScanValue.
  cbn. intros [H1 H2] Hj.
  destruct (Single.ltb v _), (Single.ltb _ v); cbn;
    rewrite ?nth_store_same by lia; split; [|split| |split| |split| |split];
    try reflexivity.
  all: intros k Hk; rewrite ?nth_store_other by congruence; auto.
Qed.

(** The visits of one variable keep its running minimum and maximum and
    leave the other variables alone. *)
Lemma scan_one_variable n j (value : nat -> Single.float)
    (visits : list nat) mm :
  Single.both_length n mm -> (j < n)%nat ->
  let mm' :=
    fold_left (fun mm i => Single.ScanValue j (value i) mm) visits mm in
  Single.both_length n mm'
  /\ nth j (fst mm') S754_nan
     = Single.running_min (nth j (fst mm) S754_nan) (map value visits)
  /\ nth j (snd mm') S754_nan
     = Single.running_max (nth j (snd mm) S754_nan) (map value visits)
  /\ forall k, k <> j ->
       nth k (fst mm') S754_nan = nth k (fst mm) S754_nan
       /\ nth k (snd mm') S754_nan = nth k (snd mm) S754_nan.
Proof.
  intros Hlen Hj. revert mm Hlen.
  induction visits as [|i visits IH]; intros mm Hlen; simpl; [auto|].
  pose proof (ScanValue_both_length n j (value i) mm Hlen) as Hlen1.
  destruct (ScanValue_visit n j (value i) mm Hlen Hj) as (Ha & Hb & Hc).
  destruct (IH _ Hlen1) as (Hl & H1 & H2 & H3).
  split; [exact Hl|].
  unfold Single.running_min, Single.running_max in *. simpl.
  rewrite H1, H2, Ha, Hb. split; [reflexivity|]. split; [reflexivity|].
  intros k Hk. destruct (H3 k Hk) as [-> ->]. apply Hc, Hk.
Qed.

(** The whole scan does so for every variable it visits. *)
Lemma scan_every_variable n (value : nat -> nat -> Single.float)
    (js visits : list nat) mm :
  Single.both_length n mm -> NoDup js -> (forall j, In j js -> (j < n)%nat) ->
  let mm' :=
    fold_left (fun mm j =>
                 fold_left (fun mm i => Single.ScanValue j (value j i) mm)
                           visits mm)
              js mm in
  Single.both_length n mm'
  /\ (forall j, In j js ->
        nth j (fst mm') S754_nan
        = Single.running_min (nth j (fst mm) S754_nan) (map (value j) visits)
        /\ nth j (snd mm') S754_nan
           = Single.running_max (nth j (snd mm) S754_nan)
                                (map (value j) visits))
  /\ forall k, ~ In k js ->
       nth k (fst mm') S754_nan = nth k (fst mm) S754_nan
       /\ nth k (snd mm') S754_nan = nth k (snd mm) S754_nan.
Proof.
  intros Hlen Hnd Hjs. revert mm Hlen.
  induction js as [|a js IH]; intros mm Hlen; simpl.
  - split; [exact Hlen|]. split; [contradiction|auto].
  - inversion Hnd as [|a' js' Hnotin Hnd']; subst.
    assert (Ha : (a < n)%nat) by (apply Hjs; simpl; auto).
    destruct (scan_one_variable n a (value a) visits mm Hlen Ha)
      as (Hl1 & Hmin & Hmax & Hother1).
    destruct (IH Hnd' (fun j' H => Hjs j' (or_intror H)) _ Hl1)
      as (Hl & Hin & Hother).
    split; [exact Hl|]. split.
    + intros j [<-|Hj].
      * destruct (Hother a Hnotin) as [-> ->]. auto.
      * destruct (Hin j Hj) as [-> ->].
        assert (Hne : j <> a) by (intros ->; contradiction).
        destruct (Hother1 j Hne) as [-> ->]. auto.
    + intros k Hk.
      assert (Hk1 : ~ In k js) by (intros X; apply Hk; simpl; auto).
      assert (Hk2 : k <> a) by (intros X; apply Hk; simpl; auto).
      destruct (Hother k Hk1) as [-> ->]. apply Hother1, Hk2.
Qed.

(** The range of axis [j] is the running minimum and maximum of its
    values, from [VTK_LARGE_FLOAT] and [-VTK_LARGE_FLOAT]. *)
Lemma FindRanges_running mode field j :
  (j < Z.to_nat (Single.CountVariables VTK_LARGE_ID mode field))%nat ->
  let values :=
    Single.AxisValues mode field
      (TupleCount mode (Single.GetNumberOfComponents field)
                  (Single.NumRows VTK_LARGE_ID field))
      j in
  nth j (fst (Single.FindRanges VTK_LARGE_ID VTK_LARGE_FLOAT mode field))
      S754_nan
  = Single.running_min VTK_LARGE_FLOAT values
  /\ nth j (snd (Single.FindRanges VTK_LARGE_ID VTK_LARGE_FLOAT mode field))
         S754_nan
     = Single.running_max (Single.opp VTK_LARGE_FLOAT) values.
Proof.
  intros Hj values. subst values.
  unfold Single.FindRanges, Single.AxisValues.
  set (mm := (repeat _ _, repeat _ _)).
  assert (Hlen : Single.both_length
                   (Z.to_nat (Single.CountVariables VTK_LARGE_ID mode field))
                   mm)
    by (split; cbn; apply repeat_length).
  assert (H0 : nth j (fst mm) S754_nan = VTK_LARGE_FLOAT
               /\ nth j (snd mm) S754_nan = Single.opp VTK_LARGE_FLOAT)
    by (split; cbn; apply nth_repeat_lt; exact Hj).
  destruct H0 as [Hmin Hmax].
  destruct mode;
    cbn [Single.ScanRanges TupleCount Single.TupleValue] in *.
  - destruct (scan_every_variable _
                (fun j i => Single.GetComponent field (Z.of_nat i) (Z.of_nat j))
                (upto (Single.GetNumberOfComponents field))
                (upto (Single.NumRows VTK_LARGE_ID field)) mm Hlen
                (NoDup_upto _) (fun j H => proj1 (in_upto _ j) H))
      as (_ & Hin & _).
    destruct (Hin j) as [-> ->]; [apply in_upto; exact Hj|].
    rewrite Hmin, Hmax. auto.
  - destruct (scan_every_variable _
                (fun j i => Single.GetComponent field (Z.of_nat j) (Z.of_nat i))
                (upto (Single.NumRows VTK_LARGE_ID field))
                (upto (Single.GetNumberOfComponents field)) mm Hlen
                (NoDup_upto _) (fun j H => proj1 (in_upto _ j) H))
      as (_ & Hin & _).
    destruct (Hin j) as [-> ->]; [apply in_upto; exact Hj|].
    rewrite Hmin, Hmax. auto.
Qed.

Lemma Initialize_keeps_configuration this :
  Single.IndependentVariables (Single.Initialize this)
  = Single.IndependentVariables this
  /\ Single.NumberOfLabels (Single.Initialize this)
     = Single.NumberOfLabels this
  /\ Single.LabelFormat (Single.Initialize this) = Single.LabelFormat this.
Proof.
  unfold Single.Initialize. destruct (Single.Axes this); cbn; auto.
Qed.

(** What a layout that returns 1 stores. *)
Lemma PlaceAxes_laid_out input viewport this field :
  Single.GetFieldData input = Some field ->
  Single.ret (Single.PlaceAxes VTK_LARGE_ID VTK_LARGE_FLOAT
                input viewport this) = 1 ->
  let mode := Single.IndependentVariables this in
  let n := Single.CountVariables VTK_LARGE_ID mode field in
  let ranges := Single.FindRanges VTK_LARGE_ID VTK_LARGE_FLOAT mode field in
  let ymin := snd (Position viewport) in
  let ymax := snd (Position2 viewport) in
  let xs := Single.AxisPositions viewport n in
  let plot :=
    Single.PlotLines mode field (Single.GetNumberOfComponents field)
      (Single.NumRows VTK_LARGE_ID field) xs (fst ranges) (snd ranges)
      ymin ymax in
  let placed :=
    Single.self (Single.PlaceAxes VTK_LARGE_ID VTK_LARGE_FLOAT
                   input viewport this) in
  0 < n < VTK_LARGE_ID
  /\ Single.N placed = n
  /\ Single.Mins placed = Some (fst ranges)
  /\ Single.Maxs placed = Some (snd ranges)
  /\ Single.Xs placed = Some xs
  /\ Single.YMin placed = ymin
  /\ Single.YMax placed = ymax
  /\ Single.PlotData placed = Single.mkPolyData (fst plot) (snd plot).
Proof.
  intros Hf. unfold Single.PlaceAxes. rewrite Hf.
  destruct (Initialize_keeps_configuration this) as (-> & _ & _).
  set (n := Single.CountVariables VTK_LARGE_ID
              (Single.IndependentVariables this) field).
  destruct ((n <=? 0) || (n >=? VTK_LARGE_ID)) eqn:E; cbn;
    [discriminate|].
  intros _. apply orb_false_iff in E. destruct E as [E1 E2].
  repeat split; try reflexivity; lia.
Qed.

(** C6: after a successful layout in single precision, the range of
    every axis brackets every value the scan read for it that is not a
    NaN: for each row below [numRows] and each column below
    [numColumns], the value, if it is not a NaN, lies between [Mins] and
    [Maxs] at the axis of that column (column mode) or of that row (row
    mode).  [VTK_LARGE_FLOAT] is not a NaN. *)
Theorem ranges_bracket_ordered_values input viewport this field :
  Single.is_nan VTK_LARGE_FLOAT = false ->
  Single.GetFieldData input = Some field ->
  Single.ret (Single.PlaceAxes VTK_LARGE_ID VTK_LARGE_FLOAT
                input viewport this) = 1 ->
  let placed :=
    Single.self (Single.PlaceAxes VTK_LARGE_ID VTK_LARGE_FLOAT
                   input viewport this) in
  exists mins maxs,
    Single.Mins placed = Some mins
    /\ Single.Maxs placed = Some maxs
    /\ forall row col,
         0 <= row < Single.NumRows VTK_LARGE_ID field ->
         0 <= col < Single.GetNumberOfComponents field ->
         let axis := match Single.IndependentVariables this with
                     | VTK_IV_COLUMN => col
                     | VTK_IV_ROW => row
                     end in
         let v := Single.GetComponent field row col in
         Single.is_nan v = false ->
         Single.leb (nth (Z.to_nat axis) mins S754_nan) v = true
         /\ Single.leb v (nth (Z.to_nat axis) maxs S754_nan) = true.
Proof.
  intros Hl Hf Hret placed. subst placed.
  destruct (PlaceAxes_laid_out _ _ _ _ Hf Hret)
    as (Hn & _ & Hmi & Hma & _).
  rewrite Hmi, Hma. do 2 eexists.
  split; [reflexivity|]. split; [reflexivity|].
  intros row col Hrow Hcol axis v Hv.
  set (mode := Single.IndependentVariables this) in *.
  assert (Ha : (Z.to_nat axis
                < Z.to_nat (Single.CountVariables VTK_LARGE_ID mode field))%nat).
  { subst axis. unfold Single.CountVariables. destruct mode; lia. }
  destruct (FindRanges_running mode field (Z.to_nat axis) Ha) as [-> ->].
  set (values := Single.AxisValues _ _ _ _).
  assert (Hin : In v values).
  { subst values v axis. unfold Single.AxisValues.
    apply in_map_iff. destruct mode; cbn [TupleCount Single.TupleValue].
    - exists (Z.to_nat row). rewrite !Z2Nat.id by lia.
      split; [reflexivity|]. apply in_upto. lia.
    - exists (Z.to_nat col). rewrite !Z2Nat.id by lia.
      split; [reflexivity|]. apply in_upto. lia. }
  destruct (running_min_ordered VTK_LARGE_FLOAT values Hl) as (_ & _ & A & _).
  destruct (running_max_ordered (Single.opp VTK_LARGE_FLOAT) values)
    as (_ & _ & B & _); [rewrite is_nan_opp; exact Hl|].
  split; [apply A|apply B]; assumption.
Qed.

(** X1: after a successful layout in single precision the range of an
    axis is attained: if some value read for axis [j] is below
    [VTK_LARGE_FLOAT], [Mins[j]] is one of the values read for it, and
    no value that is not a NaN is smaller; if some value is above
    [-VTK_LARGE_FLOAT], [Maxs[j]] is one of them, and no value that is
    not a NaN is greater. *)
Theorem ranges_attained_among_ordered_values input viewport this field j :
  Single.is_nan VTK_LARGE_FLOAT = false ->
  Single.GetFieldData input = Some field ->
  Single.ret (Single.PlaceAxes VTK_LARGE_ID VTK_LARGE_FLOAT
                input viewport this) = 1 ->
  let placed :=
    Single.self (Single.PlaceAxes VTK_LARGE_ID VTK_LARGE_FLOAT
                   input viewport this) in
  0 <= j < Single.N placed ->
  let values :=
    Single.AxisValues (Single.IndependentVariables this) field
      (TupleCount (Single.IndependentVariables this)
                  (Single.GetNumberOfComponents field)
                  (Single.NumRows VTK_LARGE_ID field))
      (Z.to_nat j) in
  exists mins maxs,
    Single.Mins placed = Some mins
    /\ Single.Maxs placed = Some maxs
    /\ ((exists v, In v values /\ Single.ltb v VTK_LARGE_FLOAT = true) ->
        In (nth (Z.to_nat j) mins S754_nan) values
        /\ forall v, In v values -> Single.is_nan v = false ->
             Single.leb (nth (Z.to_nat j) mins S754_nan) v = true)
    /\ ((exists v, In v values
                   /\ Single.ltb (Single.opp VTK_LARGE_FLOAT) v = true) ->
        In (nth (Z.to_nat j) maxs S754_nan) values
        /\ forall v, In v values -> Single.is_nan v = false ->
             Single.leb v (nth (Z.to_nat j) maxs S754_nan) = true).
Proof.
  intros Hl Hf Hret placed Hj values. subst placed.
  destruct (PlaceAxes_laid_out _ _ _ _ Hf Hret)
    as (Hn & HN & Hmi & Hma & _).
  rewrite HN in Hj. rewrite Hmi, Hma.
  do 2 eexists. split; [reflexivity|]. split; [reflexivity|].
  destruct (FindRanges_running (Single.IndependentVariables this) field
              (Z.to_nat j)) as [-> ->]; [lia|].
  fold values.
  destruct (running_min_ordered VTK_LARGE_FLOAT values Hl)
    as (_ & _ & A2 & A3).
  destruct (running_max_ordered (Single.opp VTK_LARGE_FLOAT) values)
    as (_ & _ & B2 & B3); [rewrite is_nan_opp; exact Hl|].
  split.
  - intros (v & Hv & Hlt). split; [|exact A2].
    destruct A3 as [A3|A3]; [|exact A3].
    destruct (ltb_not_nan _ _ Hlt) as [Hnan _].
    pose proof (A2 v Hv Hnan) as Hle. rewrite A3 in Hle.
    apply leb_not_ltb in Hle. congruence.
  - intros (v & Hv & Hlt). split; [|exact B2].
    destruct B3 as [B3|B3]; [|exact B3].
    destruct (ltb_not_nan _ _ Hlt) as [_ Hnan].
    pose proof (B2 v Hv Hnan) as Hle. rewrite B3 in Hle.
    apply leb_not_ltb in Hle. congruence.
Qed.

End SinglePrecision.

(* ------------------------------------------------------------------ *)
(** ** The layout in single precision: polylines and positions *)








Section SinglePrecisionPlot.

Variable VTK_LARGE_ID : Z.
Variable VTK_LARGE_FLOAT : Single.float.



End SinglePrecisionPlot.

(* ------------------------------------------------------------------ *)
(** ** The layout in single precision at the samples *)

(** C6 as worded does not hold: a column that holds a NaN, 1 and 2 is
    laid out with [Mins = 1] and [Maxs = 2], and the NaN the scan read
    is neither at or above the one nor at or below the other. *)
Lemma nan_not_bracketed :
  ~ (forall input viewport this field mins maxs row col,
       let placed :=
         Single.PlaceAxes sample_large_id Single.large_float
                          input viewport this in
       Single.GetFieldData input = Some field ->
       Single.ret placed = 1 ->
       Single.Mins (Single.self placed) = Some mins ->
       Single.Maxs (Single.self placed) = Some maxs ->
       0 <= row < Single.NumRows sample_large_id field ->
       0 <= col < Single.GetNumberOfComponents field ->
       let axis := match Single.IndependentVariables this with
                   | VTK_IV_COLUMN => col
                   | VTK_IV_ROW => row
                   end in
       Single.leb (nth (Z.to_nat axis) mins S754_nan)
                  (Single.GetComponent field row col) = true
       /\ Single.leb (Single.GetComponent field row col)
                     (nth (Z.to_nat axis) maxs S754_nan) = true).
Proof.
  intros H.
  specialize (H (Single.mkDataObject (Some Single.nan_column)) sample_viewport
                (Single.NewActor VTK_IV_COLUMN) Single.nan_column
                [Single.of_int 1] [Single.of_int 2] 0 0).
  cbv zeta in H.
  destruct H as [H _]; try (vm_compute; reflexivity);
    try (vm_compute; split; [intros X; discriminate X|reflexivity]).
  vm_compute in H. discriminate.
Qed.


(** A value well above the range is placed above the box, and a value
    inside it at the rounded position: 2 on the range [-1, 1] and the
    span 100..300 is placed at 400; the middle value of a column 0, 1, 3
    in a box 100 high is placed at [8738134 * 2^-18], the [float] next
    to a third of 100. *)
Lemma above_range_above_box :
  fst (Single.PlotLines VTK_IV_COLUMN
         (Single.TableField [[Single.of_int 2]]) 1 1
         [100] [Single.of_int (-1)] [Single.of_int 1] 100 300)
  = [(Single.of_int 100, Single.of_int 400, S754_zero false)].
Proof. vm_compute. reflexivity. Qed.

Lemma third_of_span_rounded :
  nth_error
    (Single.Points
       (Single.PlotData
          (Single.self
             (Single.PlaceAxes sample_large_id Single.large_float
                (Single.table [[0; 1; 3]])
                (mkViewport (0, 0) (100, 100) (40, 12))
                (Single.NewActor VTK_IV_COLUMN)))))
    1
  = Some (S754_zero false, S754_finite false 8738134 (-18), S754_zero false).
Proof. vm_compute. reflexivity. Qed.


(** Nor do axes one unit apart stay apart: 22 axes in a box 22 units
    wide are placed at 0, 1, ..., but the axes 12 and 13 are both at
    12. *)
Lemma crowded_axes_coincide :
  Single.Xs
    (Single.self
       (Single.PlaceAxes sample_large_id Single.large_float
          (Single.table (repeat [0; 1] 22)) Single.crowded_box
          (Single.NewActor VTK_IV_COLUMN)))
  = Some [0; 1; 2; 3; 4; 5; 6; 7; 8; 9; 10; 11; 12; 12; 14; 15; 16; 17; 18;
          19; 20; 21].
Proof. vm_compute. reflexivity. Qed.

(** The last axis can be on [p2.x]: when both corners have the same x,
    and in a box one unit wide at [x = 2^23], where [float] holds
    integers only. *)
Lemma last_axis_on_corner :
  Single.Xs
    (Single.self
       (Single.PlaceAxes sample_large_id Single.large_float
          (Single.table [[0; 10; 4]; [5; 5; 5]; [-1; 1; 0]])
          (mkViewport (100, 100) (100, 300) (40, 12))
          (Single.NewActor VTK_IV_COLUMN)))
  = Some [100; 100; 100]
  /\ Single.Xs
       (Single.self
          (Single.PlaceAxes sample_large_id Single.large_float
             (Single.table [[0; 1]; [0; 1]; [0; 1]; [0; 1]]) Single.far_box
             (Single.NewActor VTK_IV_COLUMN)))
     = Some [8388608; 8388608; 8388608; 8388609].
Proof. split; vm_compute; reflexivity. Qed.

(** The column that starts with a NaN: 1 and 2 are bracketed. *)
Lemma ranges_bracket_ordered_values_witness :
  let placed :=
    Single.self (Single.PlaceAxes sample_large_id Single.large_float
                   (Single.mkDataObject (Some Single.nan_column))
                   sample_viewport (Single.NewActor VTK_IV_COLUMN)) in
  exists mins maxs,
    Single.Mins placed = Some mins
    /\ Single.Maxs placed = Some maxs
    /\ forall row col,
         0 <= row < Single.NumRows sample_large_id Single.nan_column ->
         0 <= col < Single.GetNumberOfComponents Single.nan_column ->
         let v := Single.GetComponent Single.nan_column row col in
         Single.is_nan v = false ->
         Single.leb (nth (Z.to_nat col) mins S754_nan) v = true
         /\ Single.leb v (nth (Z.to_nat col) maxs S754_nan) = true.
Proof.
  apply (ranges_bracket_ordered_values sample_large_id Single.large_float
           (Single.mkDataObject (Some Single.nan_column)) sample_viewport
           (Single.NewActor VTK_IV_COLUMN) Single.nan_column).
  - reflexivity.
  - reflexivity.
  - vm_compute. reflexivity.
Defined.



(** The column that starts with a NaN: its range is attained at 1 and
    at 2. *)
Lemma ranges_attained_among_ordered_values_witness :
  let placed :=
    Single.self (Single.PlaceAxes sample_large_id Single.large_float
                   (Single.mkDataObject (Some Single.nan_column))
                   sample_viewport (Single.NewActor VTK_IV_COLUMN)) in
  let values :=
    Single.AxisValues VTK_IV_COLUMN Single.nan_column
      (TupleCount VTK_IV_COLUMN
                  (Single.GetNumberOfComponents Single.nan_column)
                  (Single.NumRows sample_large_id Single.nan_column))
      (Z.to_nat 0) in
  exists mins maxs,
    Single.Mins placed = Some mins
    /\ Single.Maxs placed = Some maxs
    /\ ((exists v, In v values /\ Single.ltb v Single.large_float = true) ->
        In (nth (Z.to_nat 0) mins S754_nan) values
        /\ forall v, In v values -> Single.is_nan v = false ->
             Single.leb (nth (Z.to_nat 0) mins S754_nan) v = true)
    /\ ((exists v, In v values
                   /\ Single.ltb (Single.opp Single.large_float) v = true) ->
        In (nth (Z.to_nat 0) maxs S754_nan) values
        /\ forall v, In v values -> Single.is_nan v = false ->
             Single.leb v (nth (Z.to_nat 0) maxs S754_nan) = true).
Proof.
  apply (ranges_attained_among_ordered_values
           sample_large_id Single.large_float
           (Single.mkDataObject (Some Single.nan_column)) sample_viewport
           (Single.NewActor VTK_IV_COLUMN) Single.nan_column 0).
  - reflexivity.
  - reflexivity.
  - vm_compute. reflexivity.
  - vm_compute. split; [intros X; discriminate X | reflexivity].
Defined.
